(** * WIPEOUT-REBORN content reorganization scripts: a shallow embedding

    The repository is a set of one-shot editor scripts
    ([reorganize_unreal_content.py], [reorganize_simple.py],
    [quick_create_folders.py], [cleanup_after_reorganization.py]) that drive
    the host editor's asset registry and asset library.

    Python [str] values are modelled as [string] (the UTF-8 bytes of the
    text).  [str.lower] is modelled on every character whose lower-case
    form has an ASCII character in it: the letters [A]-[Z], U+212A (Kelvin
    sign, lowered to [k]) and U+0130 (lowered to [i] followed by U+0307).
    The lower-case form of any other character is made of characters
    outside ASCII, and the model leaves such a character as it is: the
    scripts use a lowered name only to look for ASCII keywords in it, and
    an occurrence of an ASCII keyword lies between two characters outside
    ASCII, whichever they are.
    The host editor is modelled as an abstract store behind the interface
    [EditorAPI]; every call on it may return a value or raise, may change the
    store, and is recorded, together with every [print], in the event list of
    the run. *)

From Stdlib Require Import String Ascii List Bool Arith Lia DecimalString.
Import ListNotations.
Open Scope string_scope.
Open Scope list_scope.
Open Scope nat_scope.

(** ** Python string operations used by the scripts *)

Module PyStr.

(** [c.lower()] on one character (ASCII letters only). *)
Definition lower_ascii (c : ascii) : ascii :=
  let n := nat_of_ascii c in
  if (65 <=? n) && (n <=? 90) then ascii_of_nat (n + 32) else c.

(** [s.lower()] on the UTF-8 bytes of [s].  Two characters outside ASCII
    have an ASCII letter in their lower-case form: U+0130 (bytes 196 176)
    becomes [i] followed by U+0307 (bytes 204 135), and U+212A (bytes 226
    132 170) becomes [k].  196 and 226 are lead bytes, so the tests below
    never fire inside another character. *)
Fixpoint lower (s : string) : string :=
  match s with
  | EmptyString => EmptyString
  | String c s' =>
      match s' with
      | String c2 rest2 =>
          if Ascii.eqb c "196" && Ascii.eqb c2 "176"
          then String "i" (String "204" (String "135" (lower rest2)))
          else
            match rest2 with
            | String c3 rest3 =>
                if Ascii.eqb c "226" && Ascii.eqb c2 "132" && Ascii.eqb c3 "170"
                then String "k" (lower rest3)
                else String (lower_ascii c) (lower s')
            | EmptyString => String (lower_ascii c) (lower s')
            end
      | EmptyString => String (lower_ascii c) (lower s')
      end
  end.

(** [s.startswith(p)] *)
Fixpoint starts_with (p s : string) : bool :=
  match p, s with
  | EmptyString, _ => true
  | String _ _, EmptyString => false
  | String a p', String b s' => Ascii.eqb a b && starts_with p' s'
  end.

(** [sub in s] *)
Fixpoint contains (sub s : string) : bool :=
  starts_with sub s ||
  match s with
  | EmptyString => false
  | String _ s' => contains sub s'
  end.

(** [s.lstrip(c)] for a one-character strip set. *)
Fixpoint lstrip (c : ascii) (s : string) : string :=
  match s with
  | EmptyString => EmptyString
  | String a s' => if Ascii.eqb a c then lstrip c s' else s
  end.

(** Body of [s.replace(old, new)] for a non-empty [old]: scan from the left,
    [skip] counts the characters of a match that are still to be dropped. *)
Fixpoint replace_from (old new : string) (skip : nat) (s : string) : string :=
  match s with
  | EmptyString => EmptyString
  | String c s' =>
      match skip with
      | S k => replace_from old new k s'
      | O =>
          if starts_with old s
          then new ++ replace_from old new (String.length old - 1) s'
          else String c (replace_from old new 0 s')
      end
  end.

(** [s.replace("", new)]: [new] before every character and at the end. *)
Fixpoint intersperse (new s : string) : string :=
  match s with
  | EmptyString => new
  | String c s' => new ++ String c (intersperse new s')
  end.

(** [s.replace(old, new)] *)
Definition replace (old new s : string) : string :=
  match old with
  | EmptyString => intersperse new s
  | String _ _ => replace_from old new 0 s
  end.

(** [s.split(sep)] for a one-character separator: [cur] is the field being
    read, kept reversed. *)
Fixpoint rev_string (acc s : string) : string :=
  match s with
  | EmptyString => acc
  | String c s' => rev_string (String c acc) s'
  end.

Fixpoint split_from (sep : ascii) (cur : string) (s : string) : list string :=
  match s with
  | EmptyString => [rev_string EmptyString cur]
  | String c s' =>
      if Ascii.eqb c sep
      then rev_string EmptyString cur :: split_from sep EmptyString s'
      else split_from sep (String c cur) s'
  end.

Definition split (sep : ascii) (s : string) : list string :=
  split_from sep EmptyString s.

(** [s * n] *)
Fixpoint repeat_str (s : string) (n : nat) : string :=
  match n with
  | O => EmptyString
  | S k => s ++ repeat_str s k
  end.

(** [str(n)] for a non-negative [int]. *)
Definition str_of_nat (n : nat) : string :=
  NilEmpty.string_of_uint (Nat.to_uint n).

(** [x in l] for a list of strings. *)
Definition mem (x : string) (l : list string) : bool :=
  existsb (String.eqb x) l.

(** The mathematical notion the [in] operator decides. *)
Definition Substring (sub s : string) : Prop :=
  exists pre post, s = (pre ++ sub ++ post)%string.

End PyStr.

(** ** [ContentReorganizer]: the blueprint classifier *)

Module Classifier.
Import PyStr.

(** [self.bp_classification]: a dict literal, iterated in insertion order. *)
Definition bp_classification : list (string * list string) :=
  [ ("player", ["player"; "character"; "pawn"; "controller"]);
    ("gameplay", ["platform"; "checkpoint"; "exit"; "bouncy"; "lava"]);
    ("environment", ["light"; "sky"; "atmosphere"; "fog"; "cloud"]) ].

(** [any(keyword in asset_name_lower for keyword in keywords)] *)
Definition any_keyword (keywords : list string) (asset_name_lower : string) : bool :=
  existsb (fun keyword => contains keyword asset_name_lower) keywords.

(** The [for category, keywords in ...items()] loop with its early return. *)
Fixpoint first_category (rules : list (string * list string))
    (asset_name_lower : string) : option string :=
  match rules with
  | [] => None
  | (category, keywords) :: rest =>
      if any_keyword keywords asset_name_lower then Some category
      else first_category rest asset_name_lower
  end.

Definition classify_blueprint (asset_name : string) : string :=
  let asset_name_lower := lower asset_name in
  match first_category bp_classification asset_name_lower with
  | Some category => category
  | None => "gameplay"
  end.

(** The specification's wording: a rule matches when one of its keywords
    occurs as a substring of the lowered name; the answer is the category of
    the first matching rule. *)
Definition RuleMatches (keywords : list string) (lowered : string) : Prop :=
  exists keyword, In keyword keywords /\ Substring keyword lowered.

Definition FirstMatch (rules : list (string * list string))
    (lowered category : string) : Prop :=
  exists before keywords after,
    rules = before ++ (category, keywords) :: after /\
    RuleMatches keywords lowered /\
    Forall (fun rule => ~ RuleMatches (snd rule) lowered) before.

Definition NoMatch (rules : list (string * list string)) (lowered : string) : Prop :=
  Forall (fun rule => ~ RuleMatches (snd rule) lowered) rules.

End Classifier.


(** ** The host editor: asset records, calls, events and the run monad *)

Module Host.

(** The fields of an asset record the scripts read: [package_name],
    [asset_name] and [asset_class_path.asset_name], each through [str]. *)
Record AssetData := mkAsset {
  package_name : string;
  asset_name : string;
  asset_class : string
}.

(** What a Python call does: it returns a value or raises an exception
    (of which the scripts only ever read the message). *)
Inductive outcome (A : Type) : Type :=
| Returns (a : A)
| Raises (msg : string).
Arguments Returns {A} a.
Arguments Raises {A} msg.

(** The host editor is not part of the repository: its operations are taken
    as a parameter, under the names the scripts call them by
    ([EditorAssetLibrary] and the asset registry). The store is opaque: each
    operation may change it, and may raise. *)
Class EditorAPI (S : Type) : Type := {
  does_directory_exist : string -> S -> outcome bool * S;
  make_directory : string -> S -> outcome bool * S;
  get_assets_by_path : string -> bool -> S -> outcome (list AssetData) * S;
  get_assets_by_class : string -> bool -> S -> outcome (list AssetData) * S;
  rename_asset : string -> string -> S -> outcome bool * S;
  delete_asset : string -> S -> outcome bool * S;
  consolidate_assets : string -> list string -> S -> outcome bool * S
}.

Inductive Call : Type :=
| DoesDirectoryExist (path : string)
| MakeDirectory (path : string)
| GetAssetsByPath (path : string) (recursive : bool)
| GetAssetsByClass (class_name : string) (recursive : bool)
| RenameAsset (source target : string)
| DeleteAsset (path : string)
| ConsolidateAssets (asset_to_consolidate_to : string)
    (assets_to_consolidate : list string).

Inductive Response : Type :=
| RBool (b : bool)
| RAssets (l : list AssetData)
| RRaised (msg : string).

(** One observable step of a run: a line written by [print], or a call on
    the store with what it answered. *)
Inductive Event : Type :=
| EvPrint (line : string)
| EvCall (c : Call) (r : Response).

Record Run (S A : Type) : Type := mkRun {
  result : outcome A;
  final : S;
  events : list Event
}.
Arguments mkRun {S A} result final events.
Arguments result {S A} r.
Arguments final {S A} r.
Arguments events {S A} r.

(** A script fragment: from a store to its outcome, the store it leaves and
    the events it produced, in order. *)
Definition M (S A : Type) : Type := S -> Run S A.

Definition ret {S A} (a : A) : M S A :=
  fun s => mkRun (Returns a) s [].

Definition bind {S A B} (m : M S A) (k : A -> M S B) : M S B :=
  fun s =>
    let r := m s in
    match result r with
    | Returns a =>
        let r' := k a (final r) in
        mkRun (result r') (final r') (events r ++ events r')
    | Raises msg => mkRun (Raises msg) (final r) (events r)
    end.

(** [try: m  except Exception as e: handler(e)] *)
Definition try_except {S A} (m : M S A) (handler : string -> M S A) : M S A :=
  fun s =>
    let r := m s in
    match result r with
    | Returns a => r
    | Raises msg =>
        let r' := handler msg (final r) in
        mkRun (result r') (final r') (events r ++ events r')
    end.

Definition print {S} (line : string) : M S unit :=
  fun s => mkRun (Returns tt) s [EvPrint line].

(** [for x in l: acc = body(x, acc)] *)
Fixpoint for_each {S A B} (l : list A) (acc : B) (body : A -> B -> M S B) : M S B :=
  match l with
  | [] => ret acc
  | x :: l' => bind (body x acc) (fun acc' => for_each l' acc' body)
  end.

Definition bool_response (r : outcome bool) : Response :=
  match r with Returns b => RBool b | Raises msg => RRaised msg end.

Definition assets_response (r : outcome (list AssetData)) : Response :=
  match r with Returns l => RAssets l | Raises msg => RRaised msg end.

Definition call_bool {S} (c : Call) (op : S -> outcome bool * S) : M S bool :=
  fun s => let '(r, s') := op s in mkRun r s' [EvCall c (bool_response r)].

Definition call_assets {S} (c : Call) (op : S -> outcome (list AssetData) * S)
  : M S (list AssetData) :=
  fun s => let '(r, s') := op s in mkRun r s' [EvCall c (assets_response r)].

Section Calls.
Context {S : Type} {API : EditorAPI S}.

Definition directory_exists (path : string) : M S bool :=
  call_bool (DoesDirectoryExist path) (does_directory_exist path).
Definition mkdir (path : string) : M S bool :=
  call_bool (MakeDirectory path) (make_directory path).
Definition assets_by_path (path : string) (recursive : bool) : M S (list AssetData) :=
  call_assets (GetAssetsByPath path recursive) (get_assets_by_path path recursive).
Definition assets_by_class (class_name : string) (recursive : bool)
  : M S (list AssetData) :=
  call_assets (GetAssetsByClass class_name recursive)
    (get_assets_by_class class_name recursive).
Definition rename (source target : string) : M S bool :=
  call_bool (RenameAsset source target) (rename_asset source target).
Definition delete (path : string) : M S bool :=
  call_bool (DeleteAsset path) (delete_asset path).
Definition consolidate (target : string) (assets : list string) : M S bool :=
  call_bool (ConsolidateAssets target assets) (consolidate_assets target assets).
End Calls.

(** Projections of an event list. *)
Fixpoint calls_of (evs : list Event) : list Call :=
  match evs with
  | [] => []
  | EvCall c _ :: rest => c :: calls_of rest
  | EvPrint _ :: rest => calls_of rest
  end.

Fixpoint printed (evs : list Event) : list string :=
  match evs with
  | [] => []
  | EvPrint line :: rest => line :: printed rest
  | EvCall _ _ :: rest => printed rest
  end.

(** The calls that change the store's content: create, rename, delete,
    consolidate. *)
Definition is_mutation (c : Call) : bool :=
  match c with
  | MakeDirectory _ | RenameAsset _ _ | DeleteAsset _ | ConsolidateAssets _ _ => true
  | DoesDirectoryExist _ | GetAssetsByPath _ _ | GetAssetsByClass _ _ => false
  end.

Definition is_rename (c : Call) : bool :=
  match c with RenameAsset _ _ => true | _ => false end.

Definition is_make_directory (c : Call) : bool :=
  match c with MakeDirectory _ => true | _ => false end.

Definition is_folder_call (c : Call) : bool :=
  match c with DoesDirectoryExist _ | MakeDirectory _ => true | _ => false end.

(** A rename that did not succeed: it answered [False] or raised. *)
Definition is_failed_rename (e : Event) : bool :=
  match e with
  | EvCall (RenameAsset _ _) (RBool false) => true
  | EvCall (RenameAsset _ _) (RRaised _) => true
  | _ => false
  end.

(** Every event of every run of [m] passes the test [p]. *)
Definition all_events {S A} (p : Event -> bool) (m : M S A) : Prop :=
  forall s, forallb p (events (m s)) = true.

(** The test: a line, or a call that does not change the store. *)
Definition harmless (e : Event) : bool :=
  match e with
  | EvPrint _ => true
  | EvCall c _ => negb (is_mutation c)
  end.

(** The test: a line, or a call on folders. *)
Definition folder_only (e : Event) : bool :=
  match e with
  | EvPrint _ => true
  | EvCall c _ => is_folder_call c
  end.

Definition newline : string := String (ascii_of_nat 10) EmptyString.

(** ["=" * 60] and friends. *)
Definition rule (c : string) (n : nat) : string := PyStr.repeat_str c n.

(** [len(l)] inside an f-string. *)
Definition len_str {A} (l : list A) : string := PyStr.str_of_nat (length l).

(** A run of consecutive [print] statements. *)
Fixpoint print_all {S} (lines : list string) : M S unit :=
  match lines with
  | [] => ret tt
  | line :: rest => bind (print line) (fun _ => print_all rest)
  end.

Module Notations.
Notation "x <- m ;; k" := (bind m (fun x => k))
  (at level 61, m at next level, right associativity).
Notation "' pat <- m ;; k" := (bind m (fun x => match x with pat => k end))
  (at level 61, pat pattern, m at next level, right associativity).
Notation "m ;; k" := (bind m (fun _ => k))
  (at level 61, right associativity).
End Notations.

End Host.

(** ** [quick_create_folders.py] *)

Module QuickCreate.
Import PyStr Host Host.Notations.

Definition folders : list string :=
  [ "/Game/Core";
    "/Game/Core/Blueprints";
    "/Game/Core/Blueprints/Player";
    "/Game/Core/Blueprints/Gameplay";
    "/Game/Core/Blueprints/Environment";
    "/Game/Core/Materials";
    "/Game/Core/Textures";
    "/Game/UI";
    "/Game/UI/VirtualJoystick";
    "/Game/UI/Widgets";
    "/Game/UI/HUD";
    "/Game/Levels";
    "/Game/Levels/Maps";
    "/Game/Levels/Sublevels";
    "/Game/External";
    "/Game/External/DBV" ].

(** The three accumulators of the loop, which are also the returned dict. *)
Record Tally : Type := mkTally {
  created : list string;
  existing : list string;
  failed : list string
}.

Section Script.
Context {S : Type} {API : EditorAPI S}.

(** Body of [for folder in folders]. *)
Definition ensure_folder (folder : string) (t : Tally) : M S Tally :=
  already <- directory_exists folder ;;
  if already then
    print ("✓ Already exists: " ++ folder)%string ;;
    ret (mkTally (created t) (existing t ++ [folder]) (failed t))
  else
    success <- mkdir folder ;;
    if success then
      print ("✓ Created: " ++ folder)%string ;;
      ret (mkTally (created t ++ [folder]) (existing t) (failed t))
    else
      print ("✗ Failed: " ++ folder)%string ;;
      ret (mkTally (created t) (existing t) (failed t ++ [folder])).

(** The loop, for any folder list. *)
Definition ensure_folders (folder_list : list string) : M S Tally :=
  for_each folder_list (mkTally [] [] []) ensure_folder.

Definition print_failed (folder : string) (_ : unit) : M S unit :=
  print ("  - " ++ folder)%string.

(** The summary block and the closing advice. *)
Definition print_summary (t : Tally) : M S unit :=
  print (newline ++ rule "=" 60)%string ;;
  print "Summary" ;;
  print (rule "=" 60) ;;
  print ("Created: " ++ len_str (created t) ++ " folders")%string ;;
  print ("Already existed: " ++ len_str (existing t) ++ " folders")%string ;;
  print ("Failed: " ++ len_str (failed t) ++ " folders")%string ;;
  match failed t with
  | _ :: _ =>
      print (newline ++ "⚠️  Some folders failed to create:")%string ;;
      for_each (failed t) tt print_failed
  | [] => print (newline ++ "✅ All folders created successfully!")%string
  end ;;
  print_all
    [ (newline ++ rule "=" 60)%string;
      "Next Steps:";
      rule "=" 60;
      "1. Refresh Content Browser (right-click → Refresh)";
      "2. Start moving assets to appropriate folders";
      "3. Move DBV folder to External/DBV";
      "4. Move maps to Levels/Maps";
      "5. Categorize blueprints into Player/Gameplay/Environment";
      (newline ++ "Refer to REORGANIZATION_GUIDE.md for detailed instructions")%string;
      (rule "=" 60 ++ newline)%string ].

Definition create_folder_structure : M S Tally :=
  print (newline ++ rule "=" 60)%string ;;
  print "Creating Folder Structure" ;;
  print (rule "=" 60 ++ newline)%string ;;
  t <- ensure_folders folders ;;
  print_summary t ;;
  ret t.
End Script.

End QuickCreate.

(** ** [cleanup_after_reorganization.py]: [ContentCleanup] *)

Module Cleanup.
Import PyStr Host Host.Notations.

(** The test of the collecting loop of [fix_redirectors_in_folder]. *)
Definition is_redirector (asset : AssetData) : bool :=
  contains "Redirector" (asset_class asset) ||
  contains "ObjectRedirector" (asset_class asset).

(** [redirectors]: the package names of the redirectors, in listing order. *)
Definition redirectors_of (assets : list AssetData) : list string :=
  map package_name (filter is_redirector assets).

Section Script.
Context {S : Type} {API : EditorAPI S}.

(** Body of [for redirector_path in redirectors]: a bare [except: pass]. *)
Definition delete_redirector (redirector_path : string) (_ : unit) : M S unit :=
  try_except
    (_ <- delete redirector_path ;;
     print ("    ✓ Deleted redirector: " ++ redirector_path)%string)
    (fun _ => ret tt).

Definition fix_redirectors_in_folder (folder_path : string) : M S nat :=
  print (newline ++ "Fixing redirectors in: " ++ folder_path)%string ;;
  present <- directory_exists folder_path ;;
  if negb present then
    print ("  Folder doesn't exist: " ++ folder_path)%string ;;
    ret 0
  else
    assets <- assets_by_path folder_path true ;;
    let redirectors := redirectors_of assets in
    match redirectors with
    | first :: _ =>
        print ("  Found " ++ len_str redirectors ++ " redirectors to fix")%string ;;
        fixed <- (if 0 <? length redirectors
                  then consolidate first redirectors
                  else ret true) ;;
        for_each redirectors tt delete_redirector ;;
        ret (length redirectors)
    | [] =>
        print "  No redirectors found" ;;
        ret 0
    end.

(** [None] is Python's [None]; [Some b] is the boolean [b]. *)
Definition check_folder_empty (folder_path : string) : M S (option bool) :=
  present <- directory_exists folder_path ;;
  if negb present then ret None
  else
    assets <- assets_by_path folder_path true ;;
    ret (Some (length assets =? 0)).

Definition folders_to_check : list string :=
  [ "/Game/DBV"; "/Game/Courses"; "/Game/TopDown"; "/Game/Input" ].

Definition remaining_line (asset : AssetData) : string :=
  ("      - " ++ asset_name asset ++ " (" ++ asset_class asset ++ ")")%string.

Definition print_remaining (asset : AssetData) (_ : unit) : M S unit :=
  print (remaining_line asset).

(** Body of [for folder in folders_to_check] in [find_empty_folders]. *)
Definition report_folder (folder : string) (empty_folders : list string)
  : M S (list string) :=
  is_empty <- check_folder_empty folder ;;
  match is_empty with
  | None =>
      print ("✓ Already deleted: " ++ folder)%string ;;
      ret empty_folders
  | Some true =>
      print ("⚠️  Empty folder found: " ++ folder)%string ;;
      ret (empty_folders ++ [folder])
  | Some false =>
      assets <- assets_by_path folder true ;;
      let asset_count := length assets in
      print ("⚠️  Folder still has " ++ str_of_nat asset_count
             ++ " assets: " ++ folder)%string ;;
      (if (0 <? asset_count) && (asset_count <=? 10) then
         print "    Remaining assets:" ;;
         for_each (firstn 10 assets) tt print_remaining
       else ret tt) ;;
      ret empty_folders
  end.

(** The loop of [find_empty_folders], for any list of folders. *)
Definition report_folders (folder_list : list string) : M S (list string) :=
  for_each folder_list [] report_folder.

Definition find_empty_folders : M S (list string) :=
  print (newline ++ rule "=" 60)%string ;;
  print "STEP 2: FINDING EMPTY FOLDERS" ;;
  print (rule "=" 60) ;;
  report_folders folders_to_check.

(** Body of the loop of [fix_all_redirectors]. *)
Definition sweep_folder (folder : string) (total_fixed : nat) : M S nat :=
  fixed <- fix_redirectors_in_folder folder ;;
  ret (total_fixed + fixed).

(** The loop of [fix_all_redirectors], for any list of folders. *)
Definition sweep_folders (folder_list : list string) : M S nat :=
  for_each folder_list 0 sweep_folder.

(** [folders_to_check] of [fix_all_redirectors]. *)
Definition redirector_folders : list string :=
  [ "/Game/DBV"; "/Game/Courses"; "/Game/TopDown"; "/Game/Input";
    "/Game/External/DBV"; "/Game/Levels/Maps"; "/Game/Core/Blueprints/Player";
    "/Game/Core/Blueprints/Gameplay"; "/Game/UI/VirtualJoystick" ].

Definition fix_all_redirectors : M S nat :=
  print (newline ++ rule "=" 60)%string ;;
  print "STEP 1: FIXING REDIRECTORS" ;;
  print (rule "=" 60) ;;
  total_fixed <- sweep_folders redirector_folders ;;
  print (newline ++ "Total redirectors fixed: " ++ str_of_nat total_fixed)%string ;;
  ret total_fixed.

Definition delete_empty_folder (folder_path : string) : M S bool :=
  try_except
    (print ("  Manual cleanup needed: " ++ folder_path)%string ;;
     print "    → Right-click in Content Browser → Delete" ;;
     ret false)
    (fun e =>
       print ("  Error: " ++ e)%string ;;
       ret false).

Definition print_folder_name (folder : string) (_ : unit) : M S unit :=
  let folder_name := replace "/Game/" "" folder in
  print ("   • " ++ folder_name)%string.

Definition manual_cleanup_instructions (empty_folders : list string) : M S unit :=
  print (newline ++ rule "=" 60)%string ;;
  print "STEP 3: MANUAL CLEANUP INSTRUCTIONS" ;;
  print (rule "=" 60) ;;
  match empty_folders with
  | [] => print (newline ++ "✅ No empty folders found! Cleanup complete.")%string
  | _ :: _ =>
      print_all
        [ (newline ++ "To delete empty folders manually:")%string;
          rule "-" 60;
          "1. Open Content Browser in Unreal Editor";
          "2. Navigate to each folder below:";
          "" ] ;;
      for_each empty_folders tt print_folder_name ;;
      print_all
        [ (newline ++ "3. Right-click on each folder")%string;
          "4. Select 'Delete'";
          "5. Confirm deletion";
          "";
          "OR you can delete them all at once:";
          "  - Select all empty folders (Ctrl+Click)";
          "  - Right-click → Delete";
          "  - Confirm" ]
  end.

(** The folders [verify_reorganization] looks at: display name and path. *)
Definition verified_folders : list (string * string) :=
  [ ("External/DBV", "/Game/External/DBV");
    ("Levels/Maps", "/Game/Levels/Maps");
    ("Core/Blueprints/Player", "/Game/Core/Blueprints/Player");
    ("Core/Blueprints/Gameplay", "/Game/Core/Blueprints/Gameplay");
    ("UI/VirtualJoystick", "/Game/UI/VirtualJoystick") ].

(** One entry of the dict literal [checks]: the five entries are evaluated
    in order, each by one existence query. *)
Definition existence_check (entry : string * string) (checks : list (string * bool))
  : M S (list (string * bool)) :=
  let '(folder_name, folder_path) := entry in
  present <- directory_exists folder_path ;;
  ret (checks ++ [((folder_name ++ " exists")%string, present)]).

(** Body of the loop that fills [asset_counts]. *)
Definition count_assets (entry : string * string) (asset_counts : list (string * nat))
  : M S (list (string * nat)) :=
  let '(folder_name, folder_path) := entry in
  present <- directory_exists folder_path ;;
  if present then
    assets <- assets_by_path folder_path true ;;
    ret (asset_counts ++ [(folder_name, length assets)])
  else ret (asset_counts ++ [(folder_name, 0)]).

Definition print_check (entry : string * bool) (_ : unit) : M S unit :=
  let '(check, result) := entry in
  let status := if result then "✓" else "✗" in
  print ("  " ++ status ++ " " ++ check)%string.

Definition print_count (entry : string * nat) (_ : unit) : M S unit :=
  let '(folder, count) := entry in
  print ("  " ++ folder ++ ": " ++ str_of_nat count ++ " assets")%string.

(** [asset_counts[key]]; the key is always present where it is read. *)
Definition count_for (key : string) (asset_counts : list (string * nat)) : nat :=
  match find (fun kv => String.eqb (fst kv) key) asset_counts with
  | Some (_, n) => n
  | None => 0
  end.

Definition verified_line : string :=
  (newline ++ "✅ Reorganization verified successfully!")%string.

Definition issues_line : string :=
  (newline ++ "⚠️  Some issues detected - review counts above")%string.

Definition verify_reorganization : M S unit :=
  print (newline ++ rule "=" 60)%string ;;
  print "STEP 4: VERIFICATION" ;;
  print (rule "=" 60) ;;
  checks <- for_each verified_folders [] existence_check ;;
  asset_counts <- for_each verified_folders [] count_assets ;;
  print (newline ++ "Folder Existence Check:")%string ;;
  for_each checks tt print_check ;;
  print (newline ++ "Asset Counts in New Locations:")%string ;;
  for_each asset_counts tt print_count ;;
  print_all
    [ (newline ++ "Expected Results:")%string;
      "  - External/DBV: ~203 assets";
      "  - Levels/Maps: ~2+ maps";
      "  - Core/Blueprints/*: ~10+ blueprints";
      "  - UI/VirtualJoystick: ~3+ assets" ] ;;
  let all_good :=
    forallb snd checks && (100 <? count_for "External/DBV" asset_counts) in
  if all_good then print verified_line else print issues_line.

Definition execute_cleanup : M S unit :=
  print (newline ++ rule "#" 60)%string ;;
  print "#  CONTENT CLEANUP AFTER REORGANIZATION" ;;
  print (rule "#" 60) ;;
  fix_all_redirectors ;;
  empty_folders <- find_empty_folders ;;
  manual_cleanup_instructions empty_folders ;;
  verify_reorganization ;;
  print_all
    [ (newline ++ rule "=" 60)%string;
      "FINAL STEPS";
      rule "=" 60;
      "1. Delete empty folders manually (see instructions above)";
      "2. In Content Browser: Right-click Content → Fix Up Redirectors in Folder";
      "3. File → Save All (Ctrl+Shift+S)";
      "4. Test your game (Play In Editor)";
      "5. Commit changes to source control";
      (newline ++ "✅ Cleanup script complete!")%string ].

(** The [if __name__ == "__main__":] block. *)
Definition main : M S unit := execute_cleanup.
End Script.

End Cleanup.

(** ** [reorganize_simple.py]: [SimpleReorganizer] *)

Module Simple.
Import PyStr Host Host.Notations.

(** [results]: a dict from step name to [{'success': ..., 'moved': ...}],
    in insertion order. *)
Definition Results : Type := list (string * (bool * nat)).

Definition is_map_class (asset_class : string) : bool :=
  contains "World" asset_class || contains "Map" asset_class.

Section Script.
Context {S : Type} {API : EditorAPI S}.

Definition get_all_assets_in_path (path : string) : M S (list AssetData) :=
  try_except
    (assets_by_path path true)
    (fun e =>
       print ("Error getting assets from " ++ path ++ ": " ++ e)%string ;;
       ret []).

Definition move_asset (source_path target_path : string) (dry_run : bool)
  : M S bool :=
  if dry_run then
    print ("  [DRY RUN] Would move: " ++ source_path ++ " → " ++ target_path)%string ;;
    ret true
  else
    try_except
      (success <- rename source_path target_path ;;
       (if success
        then print ("  ✓ Moved: " ++ source_path ++ " → " ++ target_path)%string
        else print ("  ✗ Failed: " ++ source_path)%string) ;;
       ret success)
      (fun e =>
         print ("  ✗ Error moving " ++ source_path ++ ": " ++ e)%string ;;
         ret false).

(** The tail shared by every moving loop: record the source under
    [moved] or [failed]. *)
Definition record_move (source_path : string) (success : bool)
    (acc : list string * list string) : list string * list string :=
  let '(moved, failed) := acc in
  if success then (moved ++ [source_path], failed)
  else (moved, failed ++ [source_path]).

(** Target path computed in [move_folder_contents]. *)
Definition folder_target (source_folder target_folder : string)
    (asset_data : AssetData) : string :=
  let source_path := package_name asset_data in
  let relative_path := lstrip "/" (replace source_folder "" source_path) in
  match relative_path with
  | String _ _ => (target_folder ++ "/" ++ relative_path)%string
  | EmptyString => (target_folder ++ "/" ++ asset_name asset_data)%string
  end.

(** Body of [for asset_data in all_assets] in [move_folder_contents]. *)
Definition move_one (source_folder target_folder : string) (dry_run : bool)
    (asset_data : AssetData) (acc : list string * list string)
  : M S (list string * list string) :=
  let source_path := package_name asset_data in
  let target_path := folder_target source_folder target_folder asset_data in
  success <- move_asset source_path target_path dry_run ;;
  ret (record_move source_path success acc).

Definition summary_line (moved failed : list string) : string :=
  (newline ++ "Summary: " ++ len_str moved ++ " successful, "
     ++ len_str failed ++ " failed")%string.

Definition move_folder_contents (source_folder target_folder : string)
    (dry_run : bool) : M S (bool * list string) :=
  print (newline ++ "Moving contents: " ++ source_folder ++ " → "
           ++ target_folder)%string ;;
  print (rule "-" 60) ;;
  present <- directory_exists source_folder ;;
  if negb present then
    print ("✗ Source folder doesn't exist: " ++ source_folder)%string ;;
    ret (false, [])
  else
    all_assets <- get_all_assets_in_path source_folder ;;
    match all_assets with
    | [] =>
        print ("No assets found in " ++ source_folder)%string ;;
        ret (true, [])
    | _ :: _ =>
        print ("Found " ++ len_str all_assets ++ " assets to move")%string ;;
        '(moved, failed) <-
          for_each all_assets ([], []) (move_one source_folder target_folder dry_run) ;;
        print (summary_line moved failed) ;;
        ret (length failed =? 0, moved)
    end.

Definition step_banner (title : string) (dry_run : bool) : M S unit :=
  print (newline ++ rule "=" 60)%string ;;
  print (title ++ (if dry_run then " (DRY RUN)" else ""))%string ;;
  print (rule "=" 60).

Definition reorganize_dbv (dry_run : bool) : M S (bool * list string) :=
  step_banner "STEP 1: Moving DBV to External/DBV" dry_run ;;
  move_folder_contents "/Game/DBV" "/Game/External/DBV" dry_run.

(** Body of the loop of [reorganize_maps]. *)
Definition move_map (dry_run : bool) (asset_data : AssetData)
    (acc : list string * list string) : M S (list string * list string) :=
  let source_path := package_name asset_data in
  if is_map_class (asset_class asset_data) then
    let target_path := ("/Game/Levels/Maps/" ++ asset_name asset_data)%string in
    success <- move_asset source_path target_path dry_run ;;
    ret (record_move source_path success acc)
  else ret acc.

Definition found_line (what : string) (moved failed : list string) : string :=
  (newline ++ "Found " ++ str_of_nat (length moved + length failed)
     ++ " " ++ what ++ " to move")%string.

Definition tally_line (moved failed : list string) : string :=
  ("Summary: " ++ len_str moved ++ " successful, " ++ len_str failed
     ++ " failed")%string.

Definition reorganize_maps (dry_run : bool) : M S (bool * list string) :=
  step_banner "STEP 2: Moving Maps to Levels/Maps" dry_run ;;
  courses_assets <- get_all_assets_in_path "/Game/Courses" ;;
  '(moved, failed) <- for_each courses_assets ([], []) (move_map dry_run) ;;
  print (found_line "maps" moved failed) ;;
  print (tally_line moved failed) ;;
  ret (length failed =? 0, moved).

(** The folder chosen for a TopDown blueprint. *)
Definition topdown_folder (asset_name_lower : string) : string :=
  if contains "character" asset_name_lower || contains "player" asset_name_lower
     || contains "controller" asset_name_lower
  then "/Game/Core/Blueprints/Player"
  else if contains "gamemode" asset_name_lower || contains "game" asset_name_lower
  then "/Game/Core/Blueprints/Gameplay"
  else "/Game/Core/Blueprints/Gameplay".

Definition move_topdown (dry_run : bool) (asset_data : AssetData)
    (acc : list string * list string) : M S (list string * list string) :=
  let source_path := package_name asset_data in
  if negb (contains "Blueprint" (asset_class asset_data)) then ret acc
  else
    let asset_name_lower := lower (asset_name asset_data) in
    let target_folder := topdown_folder asset_name_lower in
    let target_path := (target_folder ++ "/" ++ asset_name asset_data)%string in
    success <- move_asset source_path target_path dry_run ;;
    ret (record_move source_path success acc).

Definition reorganize_topdown_blueprints (dry_run : bool)
  : M S (bool * list string) :=
  step_banner "STEP 3: Moving TopDown Blueprints" dry_run ;;
  topdown_assets <- get_all_assets_in_path "/Game/TopDown" ;;
  '(moved, failed) <- for_each topdown_assets ([], []) (move_topdown dry_run) ;;
  print (found_line "blueprints" moved failed) ;;
  print (tally_line moved failed) ;;
  ret (length failed =? 0, moved).

Definition input_folder (asset_data : AssetData) : string :=
  if contains "Widget" (asset_class asset_data)
     || contains "widget" (lower (asset_name asset_data))
     || contains "ui" (lower (asset_name asset_data))
  then "/Game/UI/VirtualJoystick"
  else "/Game/Core/Blueprints/Player".

Definition move_input (dry_run : bool) (asset_data : AssetData)
    (acc : list string * list string) : M S (list string * list string) :=
  let source_path := package_name asset_data in
  if is_map_class (asset_class asset_data) then ret acc
  else
    let target_folder := input_folder asset_data in
    let target_path := (target_folder ++ "/" ++ asset_name asset_data)%string in
    success <- move_asset source_path target_path dry_run ;;
    ret (record_move source_path success acc).

Definition reorganize_input (dry_run : bool) : M S (bool * list string) :=
  step_banner "STEP 4: Moving Input Assets" dry_run ;;
  input_assets <- get_all_assets_in_path "/Game/Input" ;;
  '(moved, failed) <- for_each input_assets ([], []) (move_input dry_run) ;;
  print (found_line "input assets" moved failed) ;;
  print (tally_line moved failed) ;;
  ret (length failed =? 0, moved).

Definition moved_of (results : Results) (key : string) : nat :=
  match find (fun kv => String.eqb (fst kv) key) results with
  | Some (_, (_, n)) => n
  | None => 0
  end.

Definition total_moved (results : Results) : nat :=
  fold_left (fun total kv => total + snd (snd kv)) results 0.

Definition execute_reorganization (dry_run : bool) : M S Results :=
  print (newline ++ rule "#" 60)%string ;;
  print "#  SIMPLIFIED CONTENT REORGANIZATION" ;;
  print (rule "#" 60) ;;
  (if dry_run then
     print (newline ++ "⚠️  DRY RUN MODE - No changes will be made")%string ;;
     print ("Set dry_run=False to execute actual moves" ++ newline)%string
   else ret tt) ;;
  let results : Results := [] in
  '(success, moved) <- reorganize_dbv dry_run ;;
  let results := results ++ [("dbv", (success, length moved))] in
  '(success, moved) <- reorganize_maps dry_run ;;
  let results := results ++ [("maps", (success, length moved))] in
  '(success, moved) <- reorganize_topdown_blueprints dry_run ;;
  let results := results ++ [("topdown", (success, length moved))] in
  '(success, moved) <- reorganize_input dry_run ;;
  let results := results ++ [("input", (success, length moved))] in
  print_all
    [ (newline ++ rule "=" 60)%string;
      "FINAL SUMMARY";
      rule "=" 60;
      ("DBV assets: " ++ str_of_nat (moved_of results "dbv") ++ " moved")%string;
      ("Maps: " ++ str_of_nat (moved_of results "maps") ++ " moved")%string;
      ("TopDown blueprints: " ++ str_of_nat (moved_of results "topdown")
         ++ " moved")%string;
      ("Input assets: " ++ str_of_nat (moved_of results "input") ++ " moved")%string;
      (newline ++ "Total assets moved: " ++ str_of_nat (total_moved results))%string;
      (newline ++ rule "=" 60)%string;
      "FOLDERS TO KEEP AS-IS (Don't move these):";
      rule "=" 60;
      "✓ /Game/Characters/ - Your character assets";
      "✓ /Game/Cursor/ - Cursor assets";
      "✓ /Game/LevelPrototyping/ - Prototyping tools";
      "✓ /Game/StarterContent/ - Epic's starter content";
      "✓ /Game/__ExternalActors__/ - System folder";
      "✓ /Game/__ExternalObjects__/ - System folder" ] ;;
  (if negb dry_run then
     print_all
       [ (newline ++ rule "=" 60)%string;
         "NEXT STEPS:";
         rule "=" 60;
         "1. Refresh Content Browser";
         "2. Test your game (Play In Editor)";
         "3. Save all changes (Ctrl+Shift+S)";
         "4. Commit to source control" ]
   else ret tt) ;;
  ret results.

(** The [if __name__ == "__main__":] block. *)
Definition main : M S unit :=
  print "Running in DRY RUN mode..." ;;
  results <- execute_reorganization false ;;
  print_all
    [ (newline ++ rule "=" 60)%string;
      "Script completed!";
      "To execute actual moves, set dry_run=False";
      rule "=" 60 ].
End Script.

End Simple.

(** ** [reorganize_unreal_content.py]: [ContentReorganizer] *)

Module Reorganizer.
Import PyStr Host Host.Notations Classifier.

(** [self.target_structure] *)
Definition target_structure : list (string * list string) :=
  [ ("Core", [ "Core/Blueprints/Player"; "Core/Blueprints/Gameplay";
               "Core/Blueprints/Environment"; "Core/Materials"; "Core/Textures" ]);
    ("UI", [ "UI/VirtualJoystick"; "UI/Widgets"; "UI/HUD" ]);
    ("Levels", [ "Levels/Maps"; "Levels/Sublevels" ]);
    ("External", [ "External/DBV" ]) ].

(** One value of [folder_stats]: the five counters, in the order of the
    dict literal. *)
Record Stats : Type := mkStats {
  blueprints : nat;
  maps : nat;
  materials : nat;
  textures : nat;
  other : nat
}.

Definition no_stats : Stats := mkStats 0 0 0 0 0.

Definition stats_items (st : Stats) : list (string * nat) :=
  [ ("blueprints", blueprints st); ("maps", maps st); ("materials", materials st);
    ("textures", textures st); ("other", other st) ].

Definition stats_total (st : Stats) : nat :=
  fold_left (fun total kv => total + snd kv) (stats_items st) 0.

Inductive Kind : Type := KBlueprints | KMaps | KMaterials | KTextures | KOther.

(** The [if]/[elif] chain on [asset_class] of the analysis. *)
Definition kind_of (asset_class : string) : Kind :=
  if contains "Blueprint" asset_class then KBlueprints
  else if contains "World" asset_class || contains "Map" asset_class then KMaps
  else if contains "Material" asset_class then KMaterials
  else if contains "Texture" asset_class then KTextures
  else KOther.

Definition bump (k : Kind) (st : Stats) : Stats :=
  match k with
  | KBlueprints => mkStats (blueprints st + 1) (maps st) (materials st) (textures st) (other st)
  | KMaps => mkStats (blueprints st) (maps st + 1) (materials st) (textures st) (other st)
  | KMaterials => mkStats (blueprints st) (maps st) (materials st + 1) (textures st) (other st)
  | KTextures => mkStats (blueprints st) (maps st) (materials st) (textures st + 1) (other st)
  | KOther => mkStats (blueprints st) (maps st) (materials st) (textures st) (other st + 1)
  end.

(** [folder_stats[folder][kind] += 1] on a [defaultdict] kept in insertion order. *)
Fixpoint bump_folder (folder : string) (k : Kind) (folder_stats : list (string * Stats))
  : list (string * Stats) :=
  match folder_stats with
  | [] => [(folder, bump k no_stats)]
  | (f, st) :: rest =>
      if String.eqb f folder then (f, bump k st) :: rest
      else (f, st) :: bump_folder folder k rest
  end.

(** [asset_locations[key].append(path)] on a [defaultdict(list)]. *)
Fixpoint add_location (key path : string) (locations : list (string * list string))
  : list (string * list string) :=
  match locations with
  | [] => [(key, [path])]
  | (k, paths) :: rest =>
      if String.eqb k key then (k, paths ++ [path]) :: rest
      else (k, paths) :: add_location key path rest
  end.

Definition location_key (k : Kind) : option string :=
  match k with
  | KBlueprints => Some "blueprints"
  | KMaps => Some "maps"
  | KMaterials => Some "materials"
  | KTextures => Some "textures"
  | KOther => None
  end.

(** Top folder of a package path: [parts[0]] when the path has more than one
    part after [/Game/] is removed, ['Root'] otherwise. *)
Definition top_folder (asset_path : string) : string :=
  let parts := split "/" (replace "/Game/" "" asset_path) in
  if 1 <? length parts then hd EmptyString parts else "Root".

(** Body of the analysis loop: both dicts are updated. *)
Definition tally_asset
    (acc : list (string * list string) * list (string * Stats))
    (asset_data : AssetData)
  : list (string * list string) * list (string * Stats) :=
  let '(asset_locations, folder_stats) := acc in
  let asset_path := package_name asset_data in
  let folder := top_folder asset_path in
  let k := kind_of (asset_class asset_data) in
  (match location_key k with
   | Some key => add_location key asset_path asset_locations
   | None => asset_locations
   end,
   bump_folder folder k folder_stats).

(** [sorted(folder_stats.items())]: the keys are distinct, so the order is
    the order of the keys. *)
Fixpoint insert_by_key (kv : string * Stats) (l : list (string * Stats))
  : list (string * Stats) :=
  match l with
  | [] => [kv]
  | kv' :: rest =>
      if String.leb (fst kv) (fst kv') then kv :: l
      else kv' :: insert_by_key kv rest
  end.

Definition sorted_items (folder_stats : list (string * Stats)) : list (string * Stats) :=
  fold_right insert_by_key [] folder_stats.

(** One entry of [moves] in [move_blueprints]. *)
Record MovePlan : Type := mkPlan {
  source : string;
  target : string;
  category : string
}.

(** One entry of [moves] in [move_maps_to_levels]. *)
Record MapMove : Type := mkMapMove {
  map_source : string;
  map_target : string
}.

(** The dict returned by [execute_full_reorganization]. *)
Record Report : Type := mkReport {
  blueprint_moves : list MovePlan;
  map_moves : list MapMove;
  created_folders : list string;
  errors : list string
}.

(** The two [continue] tests of [move_blueprints]. *)
Definition already_external (asset_path : string) : bool :=
  contains "/DBV/" asset_path || contains "/External/" asset_path.

Definition already_organized (asset_path : string) : bool :=
  existsb (fun target => contains target asset_path)
    [ "Core/Blueprints"; "UI/"; "Levels/" ].

(** The [if]/[elif] chain from category to target folder. *)
Definition target_folder_of (category : string) : string :=
  if String.eqb category "player" then "/Game/Core/Blueprints/Player"
  else if String.eqb category "gameplay" then "/Game/Core/Blueprints/Gameplay"
  else if String.eqb category "environment" then "/Game/Core/Blueprints/Environment"
  else "/Game/Core/Blueprints/Gameplay".

Definition plan_of (asset_data : AssetData) : MovePlan :=
  let asset_path := package_name asset_data in
  let asset_name := asset_name asset_data in
  let category := classify_blueprint asset_name in
  let target_folder := target_folder_of category in
  let target_path := (target_folder ++ "/" ++ asset_name)%string in
  mkPlan asset_path target_path category.

Definition banner (title : string) : list string :=
  [ (newline ++ rule "=" 60)%string; title; rule "=" 60 ].

Definition dry_suffix (dry_run : bool) : string :=
  if dry_run then " (DRY RUN)" else "".

Section Script.
Context {S : Type} {API : EditorAPI S}.

Definition print_stat (kv : string * nat) (_ : unit) : M S unit :=
  let '(asset_type, count) := kv in
  if 0 <? count
  then print ("  - " ++ asset_type ++ ": " ++ str_of_nat count)%string
  else ret tt.

Definition print_folder (kv : string * Stats) (_ : unit) : M S unit :=
  let '(folder, stats) := kv in
  let total := stats_total stats in
  print (newline ++ "/" ++ folder ++ "/ (" ++ str_of_nat total ++ " assets)")%string ;;
  for_each (stats_items stats) tt print_stat.

Definition analyze_current_structure
  : M S (list (string * list string) * list (string * Stats)) :=
  print_all (banner "ANALYZING CURRENT CONTENT STRUCTURE") ;;
  let content_path := "/Game/" in
  all_assets <- assets_by_path content_path true ;;
  let '(asset_locations, folder_stats) := fold_left tally_asset all_assets ([], []) in
  print (newline ++ "Current Folder Structure:")%string ;;
  print (rule "-" 60) ;;
  for_each (sorted_items folder_stats) tt print_folder ;;
  print (newline ++ rule "=" 60)%string ;;
  print ("Total Assets Found: "
         ++ str_of_nat (fold_left (fun total kv => total + stats_total (snd kv))
                          folder_stats 0))%string ;;
  print (rule "=" 60) ;;
  ret (asset_locations, folder_stats).

(** Body of the inner loop of [create_folder_structure]. *)
Definition ensure_folder (folder : string) (created_folders : list string)
  : M S (list string) :=
  let game_path := ("/Game/" ++ folder)%string in
  already <- directory_exists game_path ;;
  if already then
    print ("✓ Folder exists: " ++ game_path)%string ;;
    ret created_folders
  else
    success <- mkdir game_path ;;
    if success then
      print ("✓ Created: " ++ game_path)%string ;;
      ret (created_folders ++ [game_path])
    else
      print ("✗ Failed to create: " ++ game_path)%string ;;
      ret created_folders.

(** The two nested loops, for any structure. *)
Definition ensure_structure (structure : list (string * list string))
  : M S (list string) :=
  for_each structure []
    (fun entry created_folders => for_each (snd entry) created_folders ensure_folder).

Definition create_folder_structure : M S (list string) :=
  print_all (banner "CREATING NEW FOLDER STRUCTURE") ;;
  ensure_structure target_structure.

(** Body of the loop of [move_blueprints]. *)
Definition move_blueprint (dry_run : bool) (asset_data : AssetData)
    (acc : list MovePlan * list string) : M S (list MovePlan * list string) :=
  let '(moves, errors) := acc in
  let asset_path := package_name asset_data in
  let asset_name := asset_name asset_data in
  if already_external asset_path then ret acc
  else if already_organized asset_path then ret acc
  else
    let plan := plan_of asset_data in
    let target_path := target plan in
    let moves := moves ++ [plan] in
    print (newline ++ asset_name)%string ;;
    print ("  Category: " ++ category plan)%string ;;
    print ("  From: " ++ asset_path)%string ;;
    print ("  To:   " ++ target_path)%string ;;
    if negb dry_run then
      success <- rename asset_path target_path ;;
      if negb success then
        print "  ✗ FAILED" ;;
        ret (moves, errors ++ [("Failed to move " ++ asset_path ++ " to "
                                  ++ target_path)%string])
      else
        print "  ✓ MOVED" ;;
        ret (moves, errors)
    else ret (moves, errors).

Definition move_blueprints (dry_run : bool) : M S (list MovePlan * list string) :=
  print_all (banner ("REORGANIZING BLUEPRINTS" ++ dry_suffix dry_run)) ;;
  all_assets <- assets_by_class "Blueprint" true ;;
  for_each all_assets ([], []) (move_blueprint dry_run).

(** Body of the loop of [move_dbv_to_external]. *)
Definition move_dbv_asset (dbv_path target_path : string) (asset_data : AssetData)
    (_ : unit) : M S unit :=
  let asset_path := package_name asset_data in
  let asset_name := asset_name asset_data in
  let relative_path := lstrip "/" (replace dbv_path "" asset_path) in
  let new_path := (target_path ++ "/" ++ relative_path)%string in
  print ("  Moving: " ++ asset_name)%string ;;
  success <- rename asset_path new_path ;;
  if success then print ("    ✓ Moved to " ++ new_path)%string
  else print "    ✗ Failed".

Definition move_dbv_to_external (dry_run : bool) : M S bool :=
  print_all (banner ("MOVING DBV TO EXTERNAL" ++ dry_suffix dry_run)) ;;
  let dbv_path := "/Game/DBV" in
  let target_path := "/Game/External/DBV" in
  present <- directory_exists dbv_path ;;
  if negb present then
    print ("✗ DBV folder not found at " ++ dbv_path)%string ;;
    ret false
  else
    print (newline ++ "Moving: " ++ dbv_path ++ " -> " ++ target_path)%string ;;
    (if negb dry_run then
       all_assets <- assets_by_path dbv_path true ;;
       for_each all_assets tt (move_dbv_asset dbv_path target_path)
     else print "  (Would move all DBV assets to External/DBV)") ;;
    ret true.

(** Body of the loop of [move_maps_to_levels]. *)
Definition move_map (dry_run : bool) (asset_data : AssetData)
    (moves : list MapMove) : M S (list MapMove) :=
  let asset_path := package_name asset_data in
  let asset_name := asset_name asset_data in
  if contains "/Levels/" asset_path then ret moves
  else
    let target_path := ("/Game/Levels/Maps/" ++ asset_name)%string in
    let moves := moves ++ [mkMapMove asset_path target_path] in
    print (newline ++ asset_name)%string ;;
    print ("  From: " ++ asset_path)%string ;;
    print ("  To:   " ++ target_path)%string ;;
    if negb dry_run then
      success <- rename asset_path target_path ;;
      (if success then print "  ✓ MOVED" else print "  ✗ FAILED") ;;
      ret moves
    else ret moves.

Definition move_maps_to_levels (dry_run : bool) : M S (list MapMove) :=
  print_all (banner ("ORGANIZING MAPS" ++ dry_suffix dry_run)) ;;
  all_assets <- assets_by_class "World" true ;;
  for_each all_assets [] (move_map dry_run).

Definition generate_report : M S unit :=
  print_all (banner "REORGANIZATION COMPLETE - FINAL STRUCTURE") ;;
  analyze_current_structure ;;
  print_all (banner "RECOMMENDATIONS") ;;
  print_all
    [ (newline ++ "1. Review all moved assets in Unreal Editor")%string;
      "2. Fix any broken references in blueprints";
      "3. Update any hard-coded asset paths in code";
      "4. Save all modified assets";
      "5. Consider creating README files in each folder";
      (newline ++ "Next Steps:")%string;
      "- Core/Blueprints: Contains all gameplay blueprints organized by type";
      "- UI/VirtualJoystick: Ready for UI widget blueprints";
      "- Levels/Maps: Contains all map files";
      "- External/DBV: Contains downloaded DBV assets" ].

Definition title_box : list string :=
  [ (newline ++ rule "#" 60)%string;
    ("#" ++ rule " " 58 ++ "#")%string;
    ("#  UNREAL ENGINE CONTENT FOLDER REORGANIZATION" ++ rule " " 13 ++ "#")%string;
    ("#" ++ rule " " 58 ++ "#")%string;
    rule "#" 60 ].

Definition dry_run_notice (dry_run : bool) : M S unit :=
  if dry_run then
    print (newline ++ "⚠️  DRY RUN MODE - No changes will be made")%string ;;
    print ("Set dry_run=False to execute actual moves" ++ newline)%string
  else ret tt.

Definition print_summary (r : Report) : M S unit :=
  print_all (banner "SUMMARY") ;;
  print ("Blueprints to reorganize: " ++ len_str (blueprint_moves r))%string ;;
  print ("Maps to move: " ++ len_str (map_moves r))%string ;;
  print ("Folders created: " ++ len_str (created_folders r))%string ;;
  match errors r with
  | _ :: _ => print ("Errors encountered: " ++ len_str (errors r))%string
  | [] => ret tt
  end.

Definition execute_full_reorganization (dry_run : bool) : M S Report :=
  print_all title_box ;;
  dry_run_notice dry_run ;;
  '(asset_locations, folder_stats) <- analyze_current_structure ;;
  created_folders <- create_folder_structure ;;
  '(bp_moves, bp_errors) <- move_blueprints dry_run ;;
  move_dbv_to_external dry_run ;;
  map_moves <- move_maps_to_levels dry_run ;;
  (if negb dry_run then generate_report else ret tt) ;;
  let report := mkReport bp_moves map_moves created_folders bp_errors in
  print_summary report ;;
  ret report.

(** The [if __name__ == "__main__":] block. *)
Definition main : M S unit :=
  print "Running in DRY RUN mode to preview changes..." ;;
  results <- execute_full_reorganization true ;;
  print_all
    [ (newline ++ rule "=" 60)%string;
      "Script execution completed!";
      "To execute the actual reorganization, set dry_run=False";
      rule "=" 60 ].
End Script.

End Reorganizer.

(** ** An in-memory store

    The fake store of the specification's section 8: a list of folders and
    a list of asset records, with switches that make chosen operations
    refuse or raise. *)

Module Fake.
Import PyStr Host.

Record Store : Type := mkStore {
  dirs : list string;
  assets : list AssetData;
  mkdir_refused : list string;
  rename_refused : list string;
  rename_raising : list string;
  delete_raising : list string
}.

Definition has_asset (path : string) (s : Store) : bool :=
  existsb (fun a => String.eqb (package_name a) path) (assets s).

Definition with_dirs (s : Store) (d : list string) : Store :=
  mkStore d (assets s) (mkdir_refused s) (rename_refused s) (rename_raising s)
    (delete_raising s).

Definition with_assets (s : Store) (l : list AssetData) : Store :=
  mkStore (dirs s) l (mkdir_refused s) (rename_refused s) (rename_raising s)
    (delete_raising s).

Definition retarget (source target : string) (a : AssetData) : AssetData :=
  if String.eqb (package_name a) source
  then mkAsset target (asset_name a) (asset_class a)
  else a.

Definition fake_exists (path : string) (s : Store) : outcome bool * Store :=
  (Returns (mem path (dirs s)), s).

Definition fake_mkdir (path : string) (s : Store) : outcome bool * Store :=
  if mem path (mkdir_refused s) then (Returns false, s)
  else (Returns true, with_dirs s (dirs s ++ [path])).

Definition fake_by_path (path : string) (recursive : bool) (s : Store)
  : outcome (list AssetData) * Store :=
  (Returns (filter (fun a => starts_with path (package_name a)) (assets s)), s).

Definition fake_by_class (class_name : string) (recursive : bool) (s : Store)
  : outcome (list AssetData) * Store :=
  (Returns (filter (fun a => String.eqb (asset_class a) class_name) (assets s)), s).

Definition fake_rename (source target : string) (s : Store) : outcome bool * Store :=
  if mem source (rename_raising s) then (Raises "rename rejected", s)
  else if mem source (rename_refused s) then (Returns false, s)
  else if has_asset source s
  then (Returns true, with_assets s (map (retarget source target) (assets s)))
  else (Returns false, s).

Definition fake_delete (path : string) (s : Store) : outcome bool * Store :=
  if mem path (delete_raising s) then (Raises "delete rejected", s)
  else if has_asset path s
  then (Returns true,
        with_assets s
          (filter (fun a => negb (String.eqb (package_name a) path)) (assets s)))
  else (Returns false, s).

Definition fake_consolidate (target : string) (l : list string) (s : Store)
  : outcome bool * Store :=
  (Returns true, s).

#[export] Instance fake_api : EditorAPI Store := {
  does_directory_exist := fake_exists;
  make_directory := fake_mkdir;
  get_assets_by_path := fake_by_path;
  get_assets_by_class := fake_by_class;
  rename_asset := fake_rename;
  delete_asset := fake_delete;
  consolidate_assets := fake_consolidate
}.

Definition empty_store : Store := mkStore [] [] [] [] [] [].

(** A store holding the given folders and assets, every operation granted. *)
Definition plain_store (d : list string) (l : list AssetData) : Store :=
  mkStore d l [] [] [] [].

End Fake.

(** ** Notions the properties are stated with *)

Module Props.
Import PyStr Host Host.Notations.

Section Store.
Context {S : Type} {API : EditorAPI S}.

(** The store answers [True] to [does_directory_exist path]. *)
Definition dir_present (path : string) (s : S) : Prop :=
  fst (does_directory_exist path s) = Returns true.

(** What the folder ensurer relies on for a second run to find its folders:
    a folder that exists still exists after an existence query or a
    [make_directory], and a granted [make_directory] makes its folder exist. *)
Record FoldersPersist : Prop := {
  query_keeps : forall p q s,
    dir_present q s -> dir_present q (snd (does_directory_exist p s));
  mkdir_keeps : forall p q s,
    dir_present q s -> dir_present q (snd (make_directory p s));
  mkdir_creates : forall p s,
    fst (make_directory p s) = Returns true ->
    dir_present p (snd (make_directory p s))
}.

(** The phases of [execute_full_reorganization]. *)
Inductive Phase : Type :=
| Analysis | FolderCreation | BlueprintMoves | SpecialFolderMoves | MapsMoves
| FinalReport.

Definition run_phase (dry_run : bool) (p : Phase) : M S unit :=
  match p with
  | Analysis => _ <- Reorganizer.analyze_current_structure ;; ret tt
  | FolderCreation => _ <- Reorganizer.create_folder_structure ;; ret tt
  | BlueprintMoves => _ <- Reorganizer.move_blueprints dry_run ;; ret tt
  | SpecialFolderMoves => _ <- Reorganizer.move_dbv_to_external dry_run ;; ret tt
  | MapsMoves => _ <- Reorganizer.move_maps_to_levels dry_run ;; ret tt
  | FinalReport => Reorganizer.generate_report
  end.

(** The phases of [order], one after the other. *)
Definition run_phases (dry_run : bool) (order : list Phase) : M S unit :=
  for_each order tt (fun p _ => run_phase dry_run p).

(** A run of the full reorganization follows [order] when its events are
    the title lines, then the events of the phases run in that order, then
    closing lines. *)
Definition follows_order (order : list Phase) (dry_run : bool) (s : S) : Prop :=
  exists opening closing,
    events (Reorganizer.execute_full_reorganization dry_run s)
    = map EvPrint opening ++ events (run_phases dry_run order s)
        ++ map EvPrint closing.

(** The order the specification gives. *)
Definition claimed_order : list Phase :=
  [ FolderCreation; Analysis; BlueprintMoves; SpecialFolderMoves; MapsMoves ].

(** The order of the code. *)
Definition code_order (dry_run : bool) : list Phase :=
  [ Analysis; FolderCreation; BlueprintMoves; SpecialFolderMoves; MapsMoves ]
  ++ (if dry_run then [] else [FinalReport]).
End Store.

(** The blueprints [move_blueprints] plans a move for: those that pass the
    two [continue] tests. *)
Definition is_candidate (asset_data : AssetData) : bool :=
  negb (Reorganizer.already_external (package_name asset_data)) &&
  negb (Reorganizer.already_organized (package_name asset_data)).

Definition planned (all_assets : list AssetData) : list Reorganizer.MovePlan :=
  map Reorganizer.plan_of (filter is_candidate all_assets).

(** The line [move_asset] prints for a candidate in dry-run mode. *)
Definition would_move_line (source_path target_path : string) : string :=
  ("  [DRY RUN] Would move: " ++ source_path ++ " → " ++ target_path)%string.

(** The plans one blueprint contributes. *)
Definition plans_for (asset_data : AssetData) : list Reorganizer.MovePlan :=
  if is_candidate asset_data then [Reorganizer.plan_of asset_data] else [].

(** Whether a call of [rename_asset] moved the asset: it returned [True]. *)
Definition succeeded (r : outcome bool) : bool :=
  match r with Returns b => b | Raises _ => false end.

(** The line [move_asset] prints after a live rename. *)
Definition move_report (source_path target_path : string) (r : outcome bool) : string :=
  match r with
  | Returns true => ("  ✓ Moved: " ++ source_path ++ " → " ++ target_path)%string
  | Returns false => ("  ✗ Failed: " ++ source_path)%string
  | Raises e => ("  ✗ Error moving " ++ source_path ++ ": " ++ e)%string
  end.

(** One rename per listed asset, in listing order, to the target
    [move_folder_contents] computes. *)
Definition rename_calls (source_folder target_folder : string)
    (all_assets : list AssetData) : list Call :=
  map (fun a => RenameAsset (package_name a)
                  (Simple.folder_target source_folder target_folder a)) all_assets.

(** What the live loop of [move_folder_contents] leaves: the two lists
    extended, one rename call per asset, as many new failures as renames
    that did not succeed. *)
Definition live_loop_ok {S : Type} (source_folder target_folder : string)
    (all_assets : list AssetData) (moved failed : list string)
    (r : Run S (list string * list string)) : Prop :=
  exists moved' failed',
    result r = Returns (moved ++ moved', failed ++ failed') /\
    calls_of (events r) = rename_calls source_folder target_folder all_assets /\
    length failed' = length (filter is_failed_rename (events r)) /\
    length moved' + length failed' = length all_assets.

(** The two events of an ensurer step on a folder that exists. *)
Definition exists_events (line : string -> string) (folder : string) : list Event :=
  [ EvCall (DoesDirectoryExist folder) (RBool true); EvPrint (line folder) ].

Definition already_exists_line (folder : string) : string :=
  ("✓ Already exists: " ++ folder)%string.

Definition folder_exists_line (game_path : string) : string :=
  ("✓ Folder exists: " ++ game_path)%string.

(** [f"/Game/{folder}"] *)
Definition game_path (folder : string) : string := ("/Game/" ++ folder)%string.

(** The test: not a [make_directory] that was refused or raised. *)
Definition mkdir_granted (e : Event) : bool :=
  match e with
  | EvCall (MakeDirectory _) (RBool true) => true
  | EvCall (MakeDirectory _) _ => false
  | _ => true
  end.

(** The line of [find_empty_folders] for a folder that still has assets. *)
Definition count_line (n : nat) (folder : string) : string :=
  ("⚠️  Folder still has " ++ str_of_nat n ++ " assets: " ++ folder)%string.

(** The asset lines among [lines] are exactly those of [names], in order. *)
Definition lists_names (names : list AssetData) (lines : list string) : Prop :=
  filter (starts_with "      - ") lines = map Cleanup.remaining_line names.

(** The lines of [dry_run_notice] and of [print_summary]. *)
Definition notice_lines (dry_run : bool) : list string :=
  if dry_run
  then [ (newline ++ "⚠️  DRY RUN MODE - No changes will be made")%string;
         ("Set dry_run=False to execute actual moves" ++ newline)%string ]
  else [].

Definition summary_lines (r : Reorganizer.Report) : list string :=
  Reorganizer.banner "SUMMARY"
  ++ [ ("Blueprints to reorganize: " ++ len_str (Reorganizer.blueprint_moves r))%string;
       ("Maps to move: " ++ len_str (Reorganizer.map_moves r))%string;
       ("Folders created: " ++ len_str (Reorganizer.created_folders r))%string ]
  ++ match Reorganizer.errors r with
     | _ :: _ => [ ("Errors encountered: " ++ len_str (Reorganizer.errors r))%string ]
     | [] => []
     end.

End Props.

(** ** Sample stores *)

Module Samples.
Import Host Fake.

Definition mesh (name : string) : AssetData :=
  mkAsset ("/Game/DBV/" ++ name) name "StaticMesh".

Definition three_meshes : list AssetData := [ mesh "Rock"; mesh "Tree"; mesh "Lamp" ].

(** [/Game/DBV] with three meshes, every operation granted. *)
Definition dbv_store : Store := plain_store ["/Game/DBV"] three_meshes.

(** The same, with the rename of [Tree] refused. *)
Definition dbv_store_one_refusal : Store :=
  mkStore ["/Game/DBV"] three_meshes [] ["/Game/DBV/Tree"] [] [].

Definition eleven_meshes : list AssetData :=
  map mesh [ "Mesh01"; "Mesh02"; "Mesh03"; "Mesh04"; "Mesh05"; "Mesh06";
             "Mesh07"; "Mesh08"; "Mesh09"; "Mesh10"; "Mesh11" ].

(** [/Game/DBV] with eleven meshes; the other folders the cleanup checks do
    not exist. *)
Definition eleven_store : Store := plain_store ["/Game/DBV"] eleven_meshes.

Definition blueprints : list AssetData :=
  [ mkAsset "/Game/TopDown/BP_PlayerController" "BP_PlayerController" "Blueprint";
    mkAsset "/Game/TopDown/Sky_Dome" "Sky_Dome" "Blueprint";
    mkAsset "/Game/Core/Blueprints/Player/BP_Hero" "BP_Hero" "Blueprint";
    mkAsset "/Game/DBV/BP_Gate" "BP_Gate" "Blueprint" ].

Definition blueprint_store : Store := plain_store [] blueprints.

(** The same blueprints in a store that refuses to rename [Sky_Dome]. *)
Definition blueprint_store_one_refusal : Store :=
  mkStore [] blueprints [] ["/Game/TopDown/Sky_Dome"] [] [].

Definition redirector (name : string) : AssetData :=
  mkAsset ("/Game/Courses/" ++ name) name "ObjectRedirector".

Definition course_assets : list AssetData :=
  [ redirector "Old_A"; mkAsset "/Game/Courses/Level1" "Level1" "World";
    redirector "Old_B"; redirector "Old_C" ].

(** [/Game/Courses] with three redirectors; deleting the second one raises. *)
Definition redirector_store : Store :=
  mkStore ["/Game/Courses"] course_assets [] [] [] ["/Game/Courses/Old_B"].

End Samples.

(** * Properties *)

(** ** The string operations *)

Module PyStrFacts.
Import PyStr.

Lemma starts_with_app (p s : string) :
  starts_with p s = true <-> exists post, s = (p ++ post)%string.
Proof.
  revert s. induction p as [|a p IH]; intros s; simpl.
  - split; [intros _; now exists s | reflexivity].
  - destruct s as [|b s]; simpl.
    + split; [discriminate | intros [post H]; discriminate].
    + rewrite andb_true_iff, Ascii.eqb_eq, IH. split.
      * intros [-> [post ->]]. now exists post.
      * intros [post H]. injection H as -> ->. split; [reflexivity | now exists post].
Qed.

Lemma contains_spec (sub s : string) :
  contains sub s = true <-> Substring sub s.
Proof.
  unfold Substring. induction s as [|c s IH].
  - simpl. rewrite orb_false_r, starts_with_app. split.
    + intros [post H]. exists EmptyString, post. exact H.
    + intros [pre [post H]]. destruct pre; simpl in H; [now exists post | discriminate].
  - cbn [contains]. rewrite orb_true_iff, starts_with_app, IH. split.
    + intros [[post H] | [pre [post H]]].
      * exists EmptyString, post. exact H.
      * exists (String c pre), post. simpl. now rewrite H.
    + intros [pre [post H]]. destruct pre as [|a pre]; simpl in H.
      * left. now exists post.
      * right. injection H as _ ->. now exists pre, post.
Qed.

(** [lower] on the two characters outside ASCII it rewrites, U+212A and
    U+0130, and on one it leaves as it is (U+00C9, bytes 195 137). *)
Example lower_kelvin_sign :
  lower ("S" ++ String "226" (String "132" (String "170" "y_Dome")))%string = "sky_dome".
Proof. reflexivity. Qed.

Example lower_dotted_capital_i :
  lower ("JoystickU" ++ String "196" (String "176" ""))%string
  = ("joysticku" ++ "i" ++ String "204" (String "135" ""))%string.
Proof. reflexivity. Qed.

Example lower_other_character :
  lower ("Caf" ++ String "195" (String "137" "S"))%string
  = ("caf" ++ String "195" (String "137" "s"))%string.
Proof. reflexivity. Qed.

End PyStrFacts.

(** ** The blueprint classifier *)

Module ClassifierFacts.
Import PyStr PyStrFacts Classifier.

Lemma any_keyword_spec (keywords : list string) (lowered : string) :
  any_keyword keywords lowered = true <-> RuleMatches keywords lowered.
Proof.
  unfold any_keyword, RuleMatches. rewrite existsb_exists.
  split; intros [kw [Hin H]]; exists kw; split; auto; now apply contains_spec.
Qed.

Lemma any_keyword_false (keywords : list string) (lowered : string) :
  any_keyword keywords lowered = false <-> ~ RuleMatches keywords lowered.
Proof.
  rewrite <- any_keyword_spec. destruct (any_keyword keywords lowered); intuition congruence.
Qed.

Lemma first_category_some rules lowered category :
  first_category rules lowered = Some category <-> FirstMatch rules lowered category.
Proof.
  induction rules as [|[c0 kws] rest IH]; simpl.
  - split; [discriminate |].
    intros (before & k & after & E & _). destruct before; discriminate.
  - destruct (any_keyword kws lowered) eqn:Hany.
    + split.
      * intros [= <-]. exists [], kws, rest. repeat split; auto.
        now apply any_keyword_spec.
      * intros (before & k & after & E & _ & Hnone).
        destruct before as [|r before]; simpl in E.
        -- now injection E as -> _ _.
        -- injection E as <- _. inversion Hnone as [|? ? Hr _]; subst.
           simpl in Hr. now apply any_keyword_spec in Hany.
    + rewrite IH. apply any_keyword_false in Hany. split.
      * intros (before & k & after & -> & Hm & Hnone).
        exists ((c0, kws) :: before), k, after. repeat split; auto.
      * intros (before & k & after & E & Hm & Hnone).
        destruct before as [|r before]; simpl in E.
        -- injection E as -> -> _. contradiction.
        -- injection E as _ ->. inversion Hnone; subst.
           exists before, k, after. repeat split; auto.
Qed.

Lemma first_category_none rules lowered :
  first_category rules lowered = None <-> NoMatch rules lowered.
Proof.
  unfold NoMatch. induction rules as [|[c0 kws] rest IH]; simpl.
  - split; auto.
  - destruct (any_keyword kws lowered) eqn:Hany.
    + split; [discriminate |]. intros H. inversion H as [|? ? Hr _]; subst.
      simpl in Hr. now apply any_keyword_spec in Hany.
    + rewrite IH. apply any_keyword_false in Hany. split.
      * intros H. constructor; auto.
      * intros H. now inversion H.
Qed.

(** Whatever the lowered name is, the first matching category is one of the
    categories of the rule list. *)
Lemma first_category_in rules lowered category :
  first_category rules lowered = Some category -> In category (map fst rules).
Proof.
  induction rules as [|[c0 kws] rest IH]; simpl; [discriminate |].
  destruct (any_keyword kws lowered).
  - intros [= <-]. now left.
  - intros H. right. auto.
Qed.

(** A name written with the Kelvin sign for its [K] is lowered to
    ["sky_dome"] and classified by the keyword ["sky"]. *)
Example classify_blueprint_kelvin_sign :
  classify_blueprint ("S" ++ String "226" (String "132" (String "170" "y_Dome")))%string
  = "environment".
Proof. reflexivity. Qed.

(** C1. The classifier lower-cases the name and tests the ordered rules
    player, gameplay, environment: its answer is [category] exactly when
    [category] belongs to the first rule one of whose keywords is a substring
    of the lowered name, or no rule matches and [category] is the default
    ["gameplay"]; the four names of the specification are classified as it
    says. *)
Theorem classify_blueprint_first_match :
  map fst bp_classification = ["player"; "gameplay"; "environment"] /\
  (forall asset_name category,
      classify_blueprint asset_name = category <->
      FirstMatch bp_classification (lower asset_name) category \/
      (NoMatch bp_classification (lower asset_name) /\ category = "gameplay")) /\
  classify_blueprint "PlayerController_BP" = "player" /\
  classify_blueprint "Checkpoint_01" = "gameplay" /\
  classify_blueprint "Sky_Dome" = "environment" /\
  classify_blueprint "Widget_Something" = "gameplay".
Proof.
  split; [reflexivity |]. split; [| repeat split; reflexivity].
  intros asset_name category. unfold classify_blueprint.
  destruct (first_category bp_classification (lower asset_name)) as [c|] eqn:E.
  - split.
    + intros <-. left. now apply first_category_some.
    + intros [H | [H _]].
      * apply first_category_some in H. congruence.
      * apply first_category_none in H. congruence.
  - split.
    + intros <-. right. split; [now apply first_category_none | reflexivity].
    + intros [H | [_ ->]]; [| reflexivity].
      apply first_category_some in H. congruence.
Qed.

(** The theorem at ["Sky_Dome"]: neither the player nor the gameplay rule
    matches ["sky_dome"], the environment rule does through ["sky"]. *)
Lemma classify_blueprint_first_match_witness :
  FirstMatch bp_classification (lower "Sky_Dome") "environment" /\
  classify_blueprint "Sky_Dome" = "environment".
Proof.
  assert (H : FirstMatch bp_classification (lower "Sky_Dome") "environment").
  { apply first_category_some. reflexivity. }
  split; [exact H |].
  apply (proj1 (proj2 classify_blueprint_first_match) "Sky_Dome" "environment").
  left. exact H.
Defined.

(** C10. The classifier is total, and its result is always one of
    ["player"], ["gameplay"], ["environment"]; each of the three is the
    result for some name, the default being the result for the empty name. *)
Theorem classify_blueprint_three_categories :
  (forall asset_name,
      In (classify_blueprint asset_name) ["player"; "gameplay"; "environment"]) /\
  classify_blueprint "" = "gameplay" /\
  classify_blueprint "pawn" = "player" /\
  classify_blueprint "fog" = "environment".
Proof.
  split; [| repeat split; reflexivity].
  intros asset_name. unfold classify_blueprint.
  destruct (first_category bp_classification (lower asset_name)) as [c|] eqn:E.
  - apply first_category_in in E. exact E.
  - simpl. auto.
Qed.

End ClassifierFacts.

(** ** The run monad *)

Module HostFacts.
Import PyStr Host Host.Notations.

Lemma calls_of_app (l1 l2 : list Event) :
  calls_of (l1 ++ l2) = calls_of l1 ++ calls_of l2.
Proof.
  induction l1 as [|[line|c r] l1 IH]; simpl; [reflexivity | exact IH |].
  now rewrite IH.
Qed.

Lemma printed_app (l1 l2 : list Event) :
  printed (l1 ++ l2) = printed l1 ++ printed l2.
Proof.
  induction l1 as [|[line|c r] l1 IH]; simpl; [reflexivity | | exact IH].
  now rewrite IH.
Qed.

Lemma calls_of_prints (lines : list string) : calls_of (map EvPrint lines) = [].
Proof. induction lines; simpl; auto. Qed.

Lemma printed_prints (lines : list string) : printed (map EvPrint lines) = lines.
Proof. induction lines; simpl; congruence. Qed.

Section Monad.
Context {S : Type}.

Lemma events_bind {A B} (m : M S A) (k : A -> M S B) (s : S) :
  events (bind m k s)
  = events (m s) ++ match result (m s) with
                    | Returns a => events (k a (final (m s)))
                    | Raises _ => []
                    end.
Proof.
  unfold bind. destruct (result (m s)); simpl; [reflexivity |].
  now rewrite app_nil_r.
Qed.

Lemma print_all_run (lines : list string) (s : S) :
  print_all lines s = mkRun (Returns tt) s (map EvPrint lines).
Proof.
  induction lines as [|line rest IH]; simpl; [reflexivity |].
  unfold bind. simpl. now rewrite IH.
Qed.

Lemma all_ret {A} p (a : A) : all_events (S:=S) p (ret a).
Proof. intros s. reflexivity. Qed.

Lemma all_print p line : p (EvPrint line) = true -> all_events (S:=S) p (print line).
Proof. intros H s. simpl. now rewrite H. Qed.

Lemma all_bind {A B} p (m : M S A) (k : A -> M S B) :
  all_events p m -> (forall a, all_events p (k a)) -> all_events p (bind m k).
Proof.
  intros Hm Hk s. rewrite events_bind, forallb_app, Hm. simpl.
  destruct (result (m s)); [apply Hk | reflexivity].
Qed.

Lemma all_try_except {A} p (m : M S A) (h : string -> M S A) :
  all_events p m -> (forall e, all_events p (h e)) -> all_events p (try_except m h).
Proof.
  intros Hm Hh s. unfold try_except. specialize (Hm s).
  destruct (result (m s)); simpl; [exact Hm |].
  now rewrite forallb_app, Hm, Hh.
Qed.

Lemma all_for_each {A B} p (l : list A) (body : A -> B -> M S B) :
  (forall x acc, all_events p (body x acc)) ->
  forall acc, all_events p (for_each l acc body).
Proof.
  intros Hbody. induction l as [|x l IH]; intros acc; simpl.
  - apply all_ret.
  - apply all_bind; [apply Hbody | intros a; apply IH].
Qed.

Lemma all_print_all p lines :
  (forall line, p (EvPrint line) = true) -> all_events (S:=S) p (print_all lines).
Proof.
  intros H s. rewrite print_all_run. simpl.
  induction lines; simpl; [reflexivity |]. now rewrite H.
Qed.

Lemma all_call_bool p c (op : S -> outcome bool * S) :
  (forall r, p (EvCall c r) = true) -> all_events p (call_bool c op).
Proof.
  intros H s. unfold call_bool. destruct (op s) as [r s']. simpl. now rewrite H.
Qed.

Lemma all_call_assets p c (op : S -> outcome (list AssetData) * S) :
  (forall r, p (EvCall c r) = true) -> all_events p (call_assets c op).
Proof.
  intros H s. unfold call_assets. destruct (op s) as [r s']. simpl. now rewrite H.
Qed.

Lemma all_if {A} p (b : bool) (m1 m2 : M S A) :
  all_events p m1 -> all_events p m2 -> all_events p (if b then m1 else m2).
Proof. destruct b; auto. Qed.
Lemma result_bind {A B} (m : M S A) (k : A -> M S B) (s : S) :
  result (bind m k s)
  = match result (m s) with
    | Returns a => result (k a (final (m s)))
    | Raises msg => Raises msg
    end.
Proof. unfold bind. now destruct (result (m s)). Qed.

Lemma final_bind {A B} (m : M S A) (k : A -> M S B) (s : S) :
  final (bind m k s)
  = match result (m s) with
    | Returns a => final (k a (final (m s)))
    | Raises msg => final (m s)
    end.
Proof. unfold bind. now destruct (result (m s)). Qed.

Lemma bind_ext {A B} (m : M S A) (k k' : A -> M S B) (s : S) :
  (forall a s', k a s' = k' a s') -> bind m k s = bind m k' s.
Proof.
  intros H. unfold bind. destruct (result (m s)); [now rewrite H | reflexivity].
Qed.

(** A loop over [l1 ++ l2] is the loop over [l1] followed by the loop
    over [l2]. *)
Lemma for_each_app {A B} (l1 l2 : list A) (body : A -> B -> M S B) :
  forall acc s,
    for_each (l1 ++ l2) acc body s
    = bind (for_each l1 acc body) (fun acc' => for_each l2 acc' body) s.
Proof.
  induction l1 as [|x l1 IH]; intros acc s.
  - simpl. unfold bind, ret. simpl. now destruct (for_each l2 acc body s).
  - cbn [app for_each].
    rewrite (bind_ext _ _ (fun acc' =>
               bind (for_each l1 acc' body) (fun acc'' => for_each l2 acc'' body)))
      by (intros; apply IH).
    unfold bind. destruct (result (body x acc s)); [| reflexivity].
    cbn [result final events].
    destruct (result (for_each l1 a body (final (body x acc s))));
      cbn [result final events]; [now rewrite app_assoc | reflexivity].
Qed.
End Monad.

Lemma harmless_no_mutation (evs : list Event) :
  forallb harmless evs = true -> filter is_mutation (calls_of evs) = [].
Proof.
  induction evs as [|[line|c r] evs IH]; simpl; auto.
  rewrite andb_true_iff. intros [Hc Hrest].
  destruct (is_mutation c); [discriminate | auto].
Qed.

Lemma folder_only_calls (evs : list Event) :
  forallb folder_only evs = true -> forallb is_folder_call (calls_of evs) = true.
Proof.
  induction evs as [|[line|c r] evs IH]; simpl; auto.
  rewrite !andb_true_iff. intros [Hc Hrest]. auto.
Qed.

Ltac quiet :=
  repeat first
    [ progress intros
    | apply all_ret
    | apply all_bind
    | apply all_try_except
    | apply all_for_each
    | apply all_print_all
    | apply all_if
    | apply all_print; reflexivity
    | apply all_call_bool; intros; reflexivity
    | apply all_call_assets; intros; reflexivity
    | match goal with
      | |- all_events _ (match ?x with _ => _ end) => destruct x
      | |- all_events _ (let '(_, _) := ?x in _) => destruct x
      end ].

(** One step through a sequence of binds. *)
Ltac step :=
  rewrite ?events_bind, ?result_bind, ?final_bind, ?print_all_run;
  cbn [result final events ret print negb].

End HostFacts.

(** ** The movers *)

Module MoverFacts.
Import PyStr Host Host.Notations HostFacts Props.

(** An input asset whose name ends in [U] and U+0130 has ["ui"] in its
    lowered name. *)
Example input_folder_dotted_capital_i :
  Simple.input_folder
    (mkAsset "/Game/Input/Pad" ("JoystickU" ++ String "196" (String "176" ""))%string
       "Texture2D")
  = "/Game/UI/VirtualJoystick".
Proof. reflexivity. Qed.

Lemma planned_cons a l : planned (a :: l) = plans_for a ++ planned l.
Proof. unfold planned, plans_for. simpl. now destruct (is_candidate a). Qed.

Lemma failed_rename_succeeded c t (r : outcome bool) :
  is_failed_rename (EvCall (RenameAsset c t) (bool_response r)) = negb (succeeded r).
Proof. now destruct r as [[|]|e]. Qed.

Lemma filter_rename_calls source_folder target_folder all_assets :
  filter is_rename (rename_calls source_folder target_folder all_assets)
  = rename_calls source_folder target_folder all_assets.
Proof.
  unfold rename_calls. induction all_assets as [|a l IH]; simpl; congruence.
Qed.

Section Store.
Context {S : Type} {API : EditorAPI S}.

(** *** Dry run of [SimpleReorganizer] *)

Lemma move_asset_dry (source_path target_path : string) (s : S) :
  Simple.move_asset source_path target_path true s
  = mkRun (Returns true) s [EvPrint (would_move_line source_path target_path)].
Proof. reflexivity. Qed.

Lemma move_loop_dry source_folder target_folder (all_assets : list AssetData) :
  forall moved failed (s : S),
    for_each all_assets (moved, failed)
      (Simple.move_one source_folder target_folder true) s
    = mkRun (Returns (moved ++ map package_name all_assets, failed)) s
        (map (fun a => EvPrint (would_move_line (package_name a)
                                  (Simple.folder_target source_folder target_folder a)))
           all_assets).
Proof.
  induction all_assets as [|a l IH]; intros moved failed s; simpl.
  - unfold ret. now rewrite app_nil_r.
  - unfold bind at 1. simpl. rewrite IH. simpl.
    now rewrite <- app_assoc.
Qed.

Lemma move_asset_harmless_dry source_path target_path :
  all_events harmless (Simple.move_asset (S:=S) source_path target_path true).
Proof. intros s. reflexivity. Qed.

Lemma get_all_assets_harmless path :
  all_events harmless (Simple.get_all_assets_in_path (S:=S) path).
Proof. unfold Simple.get_all_assets_in_path, assets_by_path. quiet. Qed.

Lemma move_folder_contents_harmless_dry source_folder target_folder :
  all_events harmless
    (Simple.move_folder_contents (S:=S) source_folder target_folder true).
Proof.
  unfold Simple.move_folder_contents, directory_exists.
  quiet; try apply get_all_assets_harmless.
  all: try (unfold Simple.move_one; quiet; apply move_asset_harmless_dry).
Qed.

Lemma move_folder_contents_dry source_folder target_folder (s s1 s2 : S) all_assets :
  does_directory_exist source_folder s = (Returns true, s1) ->
  get_assets_by_path source_folder true s1 = (Returns all_assets, s2) ->
  result (Simple.move_folder_contents source_folder target_folder true s)
  = Returns (true, map package_name all_assets) /\
  (all_assets <> [] ->
   printed (events (Simple.move_folder_contents source_folder target_folder true s))
   = [ (newline ++ "Moving contents: " ++ source_folder ++ " → " ++ target_folder)%string;
       rule "-" 60;
       ("Found " ++ len_str all_assets ++ " assets to move")%string ]
     ++ map (fun a => would_move_line (package_name a)
                        (Simple.folder_target source_folder target_folder a))
          all_assets
     ++ [ Simple.summary_line (map package_name all_assets) [] ]).
Proof.
  intros Hdir Hlist.
  unfold Simple.move_folder_contents, Simple.get_all_assets_in_path,
    directory_exists, assets_by_path, call_bool, call_assets, try_except, bind, print.
  simpl. rewrite Hdir. simpl. rewrite Hlist. simpl.
  destruct all_assets as [|a l]; simpl; [split; [reflexivity | congruence] |].
  unfold bind. simpl. rewrite move_loop_dry. simpl.
  split; [reflexivity |]. intros _.
  rewrite printed_app. simpl. do 5 f_equal.
  clear. induction l as [|b l IH]; simpl; [reflexivity | now rewrite IH].
Qed.

Lemma execute_dry_harmless :
  all_events harmless (Simple.execute_reorganization (S:=S) true).
Proof.
  unfold Simple.execute_reorganization, Simple.reorganize_dbv, Simple.reorganize_maps,
    Simple.reorganize_topdown_blueprints, Simple.reorganize_input, Simple.step_banner.
  quiet;
    try apply move_folder_contents_harmless_dry;
    try apply get_all_assets_harmless;
    try (unfold Simple.move_map, Simple.move_topdown, Simple.move_input; quiet;
         apply move_asset_harmless_dry).
Qed.

(** *** [move_blueprints] *)

Lemma move_blueprint_harmless_dry a acc :
  all_events harmless (Reorganizer.move_blueprint (S:=S) true a acc).
Proof. unfold Reorganizer.move_blueprint. quiet. Qed.

Lemma move_blueprints_harmless_dry :
  all_events harmless (Reorganizer.move_blueprints (S:=S) true).
Proof.
  unfold Reorganizer.move_blueprints, assets_by_class. quiet.
  apply move_blueprint_harmless_dry.
Qed.

Lemma move_blueprint_dry a moves errors (s : S) :
  result (Reorganizer.move_blueprint true a (moves, errors) s)
  = Returns (moves ++ plans_for a, errors) /\
  final (Reorganizer.move_blueprint true a (moves, errors) s) = s.
Proof.
  unfold Reorganizer.move_blueprint, plans_for, is_candidate.
  destruct (Reorganizer.already_external (package_name a)); simpl.
  - now rewrite app_nil_r.
  - destruct (Reorganizer.already_organized (package_name a)); simpl.
    + now rewrite app_nil_r.
    + split; reflexivity.
Qed.

Lemma move_blueprint_live a moves errors (s : S) moves' errors' :
  result (Reorganizer.move_blueprint false a (moves, errors) s)
  = Returns (moves', errors') ->
  moves' = moves ++ plans_for a.
Proof.
  unfold Reorganizer.move_blueprint, plans_for, is_candidate.
  destruct (Reorganizer.already_external (package_name a)); simpl.
  - intros [= <- _]. now rewrite app_nil_r.
  - destruct (Reorganizer.already_organized (package_name a)); simpl.
    + intros [= <- _]. now rewrite app_nil_r.
    + unfold rename, call_bool, bind, print. simpl.
      destruct (rename_asset _ _ s) as [[[|]|msg] s']; simpl; congruence.
Qed.

Lemma move_blueprint_live_returns a moves errors (s : S) :
  (forall source target st, exists b st',
      rename_asset source target st = (Returns b, st')) ->
  exists errors',
    result (Reorganizer.move_blueprint false a (moves, errors) s)
    = Returns (moves ++ plans_for a, errors').
Proof.
  intros Hrename.
  unfold Reorganizer.move_blueprint, plans_for, is_candidate.
  destruct (Reorganizer.already_external (package_name a)); simpl.
  - exists errors. now rewrite app_nil_r.
  - destruct (Reorganizer.already_organized (package_name a)); simpl.
    + exists errors. now rewrite app_nil_r.
    + unfold rename, call_bool, bind, print. simpl.
      match goal with
      | |- context [rename_asset ?x ?y ?z] =>
          destruct (Hrename x y z) as (b & st' & ->)
      end.
      destruct b; simpl; eauto.
Qed.

Lemma move_blueprints_loop_dry (all_assets : list AssetData) :
  forall moves errors (s : S),
    result (for_each all_assets (moves, errors) (Reorganizer.move_blueprint true) s)
    = Returns (moves ++ planned all_assets, errors).
Proof.
  induction all_assets as [|a l IH]; intros moves errors s.
  - simpl. unfold planned. simpl. now rewrite app_nil_r.
  - cbn [for_each]. rewrite result_bind.
    destruct (move_blueprint_dry a moves errors s) as [-> ->].
    rewrite IH, planned_cons. now rewrite app_assoc.
Qed.

Lemma move_blueprints_loop_live (all_assets : list AssetData) :
  forall moves errors (s : S) moves' errors',
    result (for_each all_assets (moves, errors) (Reorganizer.move_blueprint false) s)
    = Returns (moves', errors') ->
    moves' = moves ++ planned all_assets.
Proof.
  induction all_assets as [|a l IH]; intros moves errors s moves' errors'.
  - simpl. unfold planned. simpl. intros [= <- _]. now rewrite app_nil_r.
  - cbn [for_each]. rewrite result_bind.
    destruct (result (Reorganizer.move_blueprint false a (moves, errors) s))
      as [[m1 e1]|msg] eqn:E; [| discriminate].
    apply move_blueprint_live in E. subst m1.
    intros H. apply IH in H. rewrite H, planned_cons. now rewrite app_assoc.
Qed.

Lemma move_blueprints_loop_live_returns (all_assets : list AssetData) :
  (forall source target st, exists b st',
      rename_asset source target st = (Returns b, st')) ->
  forall moves errors (s : S),
  exists errors',
    result (for_each all_assets (moves, errors) (Reorganizer.move_blueprint false) s)
    = Returns (moves ++ planned all_assets, errors').
Proof.
  intros Hrename.
  induction all_assets as [|a l IH]; intros moves errors s.
  - exists errors. simpl. unfold planned. simpl. now rewrite app_nil_r.
  - cbn [for_each]. rewrite result_bind.
    destruct (move_blueprint_live_returns a moves errors s Hrename) as [e1 ->].
    destruct (IH (moves ++ plans_for a) e1
                (final (Reorganizer.move_blueprint false a (moves, errors) s)))
      as [e2 ->].
    exists e2. now rewrite planned_cons, app_assoc.
Qed.

Lemma move_blueprints_result (dry_run : bool) (s s1 : S) all_assets :
  get_assets_by_class "Blueprint" true s = (Returns all_assets, s1) ->
  result (Reorganizer.move_blueprints dry_run s)
  = result (for_each all_assets ([], []) (Reorganizer.move_blueprint dry_run) s1).
Proof.
  intros H. unfold Reorganizer.move_blueprints.
  rewrite result_bind, print_all_run. cbn [result final].
  rewrite result_bind. unfold assets_by_class, call_assets. rewrite H. reflexivity.
Qed.

Lemma move_blueprints_dry (s s1 : S) all_assets :
  get_assets_by_class "Blueprint" true s = (Returns all_assets, s1) ->
  result (Reorganizer.move_blueprints true s) = Returns (planned all_assets, []).
Proof.
  intros H. rewrite (move_blueprints_result true s s1 all_assets H).
  apply move_blueprints_loop_dry.
Qed.

(** C2. In dry-run mode the movers never call the store's rename (nor any
    other call that changes the store) and report every candidate as
    moved: [move_asset] answers [True] with the "would move" line,
    [move_folder_contents] returns every listed asset as moved and prints
    one "would move" line for each, [move_blueprints] returns a plan for
    every candidate and no error. *)
Theorem dry_run_performs_no_mutation :
  (forall source_path target_path (s : S),
      Simple.move_asset source_path target_path true s
      = mkRun (Returns true) s [EvPrint (would_move_line source_path target_path)]) /\
  (forall source_folder target_folder (s : S),
      filter is_mutation
        (calls_of (events (Simple.move_folder_contents source_folder target_folder
                             true s))) = []) /\
  (forall source_folder target_folder (s s1 s2 : S) all_assets,
      does_directory_exist source_folder s = (Returns true, s1) ->
      get_assets_by_path source_folder true s1 = (Returns all_assets, s2) ->
      result (Simple.move_folder_contents source_folder target_folder true s)
      = Returns (true, map package_name all_assets) /\
      (all_assets <> [] ->
       printed (events (Simple.move_folder_contents source_folder target_folder true s))
       = [ (newline ++ "Moving contents: " ++ source_folder ++ " → "
              ++ target_folder)%string;
           rule "-" 60;
           ("Found " ++ len_str all_assets ++ " assets to move")%string ]
         ++ map (fun a => would_move_line (package_name a)
                            (Simple.folder_target source_folder target_folder a))
              all_assets
         ++ [ Simple.summary_line (map package_name all_assets) [] ])) /\
  (forall (s : S),
      filter is_mutation (calls_of (events (Reorganizer.move_blueprints true s))) = []) /\
  (forall (s s1 : S) all_assets,
      get_assets_by_class "Blueprint" true s = (Returns all_assets, s1) ->
      result (Reorganizer.move_blueprints true s) = Returns (planned all_assets, [])).
Proof.
  split; [exact move_asset_dry |].
  split; [intros; apply harmless_no_mutation, move_folder_contents_harmless_dry |].
  split; [exact move_folder_contents_dry |].
  split; [intros; apply harmless_no_mutation, move_blueprints_harmless_dry |].
  exact move_blueprints_dry.
Qed.

(** C9. Given the same answer of the registry to the blueprint query,
    [move_blueprints] computes the same plans with and without the dry-run
    flag: the dry run returns the plans of the candidates, a live run that
    returns returns the same list, and a live run returns whenever the
    store's rename does not raise. *)
Theorem move_plans_independent_of_dry_run (s s' s1 s1' : S) all_assets :
  get_assets_by_class "Blueprint" true s = (Returns all_assets, s1) ->
  get_assets_by_class "Blueprint" true s' = (Returns all_assets, s1') ->
  result (Reorganizer.move_blueprints true s) = Returns (planned all_assets, []) /\
  (forall moves_live errors_live,
      result (Reorganizer.move_blueprints false s') = Returns (moves_live, errors_live) ->
      forall moves_dry errors_dry,
        result (Reorganizer.move_blueprints true s) = Returns (moves_dry, errors_dry) ->
        moves_live = moves_dry) /\
  ((forall source target st, exists b st',
       rename_asset source target st = (Returns b, st')) ->
   exists errors_live,
     result (Reorganizer.move_blueprints false s')
     = Returns (planned all_assets, errors_live)).
Proof.
  intros Hs Hs'. split; [now apply (move_blueprints_dry s s1) |]. split.
  - intros moves_live errors_live Hlive moves_dry errors_dry Hdry.
    rewrite (move_blueprints_dry s s1 all_assets Hs) in Hdry.
    injection Hdry as <- _.
    rewrite (move_blueprints_result false s' s1' all_assets Hs') in Hlive.
    now apply move_blueprints_loop_live in Hlive.
  - intros Hrename. rewrite (move_blueprints_result false s' s1' all_assets Hs').
    apply (move_blueprints_loop_live_returns all_assets Hrename [] []).
Qed.

(** *** [move_folder_contents], live *)

Lemma move_asset_live source_path target_path (s : S) :
  Simple.move_asset source_path target_path false s
  = mkRun (Returns (succeeded (fst (rename_asset source_path target_path s))))
      (snd (rename_asset source_path target_path s))
      [ EvCall (RenameAsset source_path target_path)
          (bool_response (fst (rename_asset source_path target_path s)));
        EvPrint (move_report source_path target_path
                   (fst (rename_asset source_path target_path s))) ].
Proof.
  unfold Simple.move_asset, try_except, bind, rename, call_bool, print.
  destruct (rename_asset source_path target_path s) as [[[|]|e] s']; reflexivity.
Qed.

Lemma move_one_live source_folder target_folder a moved failed (s : S) :
  let source_path := package_name a in
  let target_path := Simple.folder_target source_folder target_folder a in
  let r := fst (rename_asset source_path target_path s) in
  Simple.move_one source_folder target_folder false a (moved, failed) s
  = mkRun (Returns (Simple.record_move source_path (succeeded r) (moved, failed)))
      (snd (rename_asset source_path target_path s))
      [ EvCall (RenameAsset source_path target_path) (bool_response r);
        EvPrint (move_report source_path target_path r) ].
Proof.
  intros. unfold Simple.move_one, bind. rewrite move_asset_live. reflexivity.
Qed.

Lemma move_loop_live source_folder target_folder (all_assets : list AssetData) :
  forall moved failed (s : S),
    live_loop_ok source_folder target_folder all_assets moved failed
      (for_each all_assets (moved, failed)
         (Simple.move_one source_folder target_folder false) s).
Proof.
  unfold live_loop_ok.
  induction all_assets as [|a l IH]; intros moved failed s.
  - exists [], []. simpl. rewrite !app_nil_r. auto.
  - cbn [for_each]. unfold bind. rewrite move_one_live. cbn [result final events].
    set (src := package_name a).
    set (tgt := Simple.folder_target source_folder target_folder a).
    set (r := fst (rename_asset src tgt s)).
    set (s' := snd (rename_asset src tgt s)).
    destruct (succeeded r) eqn:Hr; cbn [Simple.record_move].
    + destruct (IH (moved ++ [src]) failed s') as (m' & f' & H1 & H2 & H3 & H4).
      exists (src :: m'), f'. rewrite H1. rewrite <- app_assoc. split; [reflexivity |].
      split; [| split].
      * cbn [app calls_of]. now rewrite H2.
      * cbn [app filter]. rewrite failed_rename_succeeded, Hr.
        cbn [negb is_failed_rename]. exact H3.
      * simpl. lia.
    + destruct (IH moved (failed ++ [src]) s') as (m' & f' & H1 & H2 & H3 & H4).
      exists m', (src :: f'). rewrite H1. rewrite <- app_assoc. split; [reflexivity |].
      split; [| split].
      * cbn [app calls_of]. now rewrite H2.
      * cbn [app filter]. rewrite failed_rename_succeeded, Hr.
        cbn [negb is_failed_rename length]. now rewrite H3.
      * simpl. lia.
Qed.

(** The live run of [move_folder_contents] on a folder that exists and
    lists [all_assets]. *)
Lemma move_folder_contents_live_run source_folder target_folder (s s1 s2 : S) all_assets :
  does_directory_exist source_folder s = (Returns true, s1) ->
  get_assets_by_path source_folder true s1 = (Returns all_assets, s2) ->
  exists moved failed,
    result (Simple.move_folder_contents source_folder target_folder false s)
    = Returns (length failed =? 0, moved) /\
    calls_of (events (Simple.move_folder_contents source_folder target_folder false s))
    = [ DoesDirectoryExist source_folder; GetAssetsByPath source_folder true ]
      ++ rename_calls source_folder target_folder all_assets /\
    length failed
    = length (filter is_failed_rename
                (events (Simple.move_folder_contents source_folder target_folder
                           false s))) /\
    length moved + length failed = length all_assets /\
    (all_assets <> [] ->
     last (printed (events (Simple.move_folder_contents source_folder target_folder
                              false s))) EmptyString
     = Simple.summary_line moved failed).
Proof.
  intros Hdir Hlist.
  unfold Simple.move_folder_contents, Simple.get_all_assets_in_path,
    directory_exists, assets_by_path, call_bool, call_assets, try_except, print, bind.
  cbn [result final events]. rewrite Hdir.
  cbn [result final events negb]. rewrite Hlist. cbn [result final events].
  destruct all_assets as [|a l].
  { exists [], []. cbn. repeat split; auto. congruence. }
  set (all_assets := a :: l).
  destruct (move_loop_live source_folder target_folder all_assets [] [] s2)
    as (moved & failed & H1 & H2 & H3 & H4).
  rewrite H1. cbn [app result final events ret].
  cbn [filter is_failed_rename calls_of printed is_rename bool_response assets_response].
  rewrite ?calls_of_app, ?printed_app, ?filter_app.
  cbn [filter is_failed_rename calls_of printed is_rename].
  rewrite ?app_nil_r, <- H3, H2.
  exists moved, failed. repeat split; auto.
  intros _. rewrite !app_comm_cons, last_last. reflexivity.
Qed.

(** C3. In live mode, on a folder that lists N assets, when exactly one of
    the renames of the run fails (answers [False] or raises), the moved
    list has N-1 entries and the failed list one (the returned flag is
    [False] and the summary line counts both), and a rename was attempted
    for every one of the N assets, in listing order. *)
Theorem live_mover_continues_after_failure source_folder target_folder
    (s s1 s2 : S) all_assets :
  does_directory_exist source_folder s = (Returns true, s1) ->
  get_assets_by_path source_folder true s1 = (Returns all_assets, s2) ->
  length (filter is_failed_rename
            (events (Simple.move_folder_contents source_folder target_folder false s)))
  = 1 ->
  exists moved failed,
    length moved = length all_assets - 1 /\
    length failed = 1 /\
    result (Simple.move_folder_contents source_folder target_folder false s)
    = Returns (false, moved) /\
    filter is_rename
      (calls_of (events (Simple.move_folder_contents source_folder target_folder false s)))
    = rename_calls source_folder target_folder all_assets /\
    length (rename_calls source_folder target_folder all_assets) = length all_assets /\
    last (printed (events (Simple.move_folder_contents source_folder target_folder false s)))
      EmptyString
    = Simple.summary_line moved failed.
Proof.
  intros Hdir Hlist Hone.
  destruct (move_folder_contents_live_run source_folder target_folder s s1 s2 all_assets
              Hdir Hlist) as (moved & failed & Hres & Hcalls & Hfail & Hlen & Hlast).
  exists moved, failed. rewrite Hone in Hfail.
  split; [lia |]. split; [exact Hfail |]. split.
  - rewrite Hres, Hfail. reflexivity.
  - split; [| split].
    + rewrite Hcalls. cbn [app filter is_rename]. apply filter_rename_calls.
    + unfold rename_calls. now rewrite length_map.
    + apply Hlast. intros ->. simpl in Hlen. lia.
Qed.

(** *** The entry point of [reorganize_simple.py] *)

Lemma main_events (s : S) :
  exists closing,
    events (Simple.main s)
    = EvPrint "Running in DRY RUN mode..."
      :: events (Simple.execute_reorganization false s) ++ map EvPrint closing.
Proof.
  unfold Simple.main. rewrite events_bind. cbn [print result final events app].
  rewrite events_bind.
  destruct (result (Simple.execute_reorganization false s)).
  - rewrite print_all_run. cbn [events]. eexists. reflexivity.
  - exists []. reflexivity.
Qed.

Lemma execute_live_calls_prefix (s : S) :
  exists later,
    calls_of (events (Simple.execute_reorganization false s))
    = calls_of (events (Simple.move_folder_contents "/Game/DBV" "/Game/External/DBV"
                          false s)) ++ later.
Proof.
  unfold Simple.execute_reorganization, Simple.reorganize_dbv, Simple.step_banner.
  repeat (rewrite ?events_bind, ?calls_of_app;
          cbn [print ret result final events calls_of app]).
  eexists. reflexivity.
Qed.

Lemma main_renames (s s1 s2 : S) a rest :
  does_directory_exist "/Game/DBV" s = (Returns true, s1) ->
  get_assets_by_path "/Game/DBV" true s1 = (Returns (a :: rest), s2) ->
  In (RenameAsset (package_name a)
        (Simple.folder_target "/Game/DBV" "/Game/External/DBV" a))
     (calls_of (events (Simple.main s))).
Proof.
  intros Hdir Hlist.
  destruct (main_events s) as [closing ->].
  cbn [calls_of]. rewrite calls_of_app.
  destruct (execute_live_calls_prefix s) as [later ->].
  destruct (move_folder_contents_live_run "/Game/DBV" "/Game/External/DBV" s s1 s2
              (a :: rest) Hdir Hlist) as (moved & failed & _ & -> & _).
  apply in_or_app. left. apply in_or_app. left. simpl. auto.
Qed.

(** C8. The entry point of [reorganize_simple.py] prints
    ["Running in DRY RUN mode..."] and then runs
    [execute_reorganization] with [dry_run=False]: all its further events
    are those of the live run (followed by the closing lines), so that it
    renames the assets of [/Game/DBV] whenever that folder lists any,
    which a run with [dry_run=True] never does. *)
Theorem main_runs_live :
  (forall (s : S), exists closing,
      events (Simple.main s)
      = EvPrint "Running in DRY RUN mode..."
        :: events (Simple.execute_reorganization false s) ++ map EvPrint closing) /\
  (forall (s s1 s2 : S) a rest,
      does_directory_exist "/Game/DBV" s = (Returns true, s1) ->
      get_assets_by_path "/Game/DBV" true s1 = (Returns (a :: rest), s2) ->
      In (RenameAsset (package_name a)
            (Simple.folder_target "/Game/DBV" "/Game/External/DBV" a))
         (calls_of (events (Simple.main s)))) /\
  (forall (s : S),
      filter is_mutation
        (calls_of (events (Simple.execute_reorganization true s))) = []).
Proof.
  split; [exact main_events |]. split; [exact main_renames |].
  intros s. apply harmless_no_mutation, execute_dry_harmless.
Qed.
End Store.

Import Fake Samples.

(** The dry-run theorem on the sample stores. *)
Lemma dry_run_performs_no_mutation_witness :
  does_directory_exist "/Game/DBV" dbv_store = (Returns true, dbv_store) /\
  get_assets_by_path "/Game/DBV" true dbv_store = (Returns three_meshes, dbv_store) /\
  result (Simple.move_folder_contents "/Game/DBV" "/Game/External/DBV" true dbv_store)
  = Returns (true, ["/Game/DBV/Rock"; "/Game/DBV/Tree"; "/Game/DBV/Lamp"]) /\
  get_assets_by_class "Blueprint" true blueprint_store
  = (Returns blueprints, blueprint_store) /\
  result (Reorganizer.move_blueprints true blueprint_store)
  = Returns (planned blueprints, []).
Proof.
  destruct (dry_run_performs_no_mutation (S:=Store)) as (_ & _ & Hfolder & _ & Hbp).
  split; [reflexivity |]. split; [reflexivity |]. split.
  - apply (Hfolder "/Game/DBV" "/Game/External/DBV" dbv_store dbv_store dbv_store
             three_meshes); reflexivity.
  - split; [reflexivity |].
    apply (Hbp blueprint_store blueprint_store blueprints). reflexivity.
Defined.

(** The plans theorem: a dry run on one store, a live run on a store that
    refuses one rename, the same registry answer. *)
Lemma move_plans_independent_of_dry_run_witness :
  get_assets_by_class "Blueprint" true blueprint_store
  = (Returns blueprints, blueprint_store) /\
  get_assets_by_class "Blueprint" true blueprint_store_one_refusal
  = (Returns blueprints, blueprint_store_one_refusal) /\
  result (Reorganizer.move_blueprints false blueprint_store_one_refusal)
  = Returns (planned blueprints,
             [ "Failed to move /Game/TopDown/Sky_Dome to /Game/Core/Blueprints/Environment/Sky_Dome" ]) /\
  result (Reorganizer.move_blueprints true blueprint_store)
  = Returns (planned blueprints, []).
Proof.
  destruct (move_plans_independent_of_dry_run blueprint_store blueprint_store_one_refusal
              blueprint_store blueprint_store_one_refusal blueprints)
    as (Hdry & _ & _); [reflexivity | reflexivity |].
  split; [reflexivity |]. split; [reflexivity |]. split; [reflexivity | exact Hdry].
Defined.

(** The live theorem on the store that refuses to rename [Tree]. *)
Lemma live_mover_continues_after_failure_witness :
  exists moved failed,
    length moved = 2 /\
    length failed = 1 /\
    result (Simple.move_folder_contents "/Game/DBV" "/Game/External/DBV" false
              dbv_store_one_refusal)
    = Returns (false, moved) /\
    filter is_rename
      (calls_of (events (Simple.move_folder_contents "/Game/DBV" "/Game/External/DBV"
                           false dbv_store_one_refusal)))
    = rename_calls "/Game/DBV" "/Game/External/DBV" three_meshes /\
    length (rename_calls "/Game/DBV" "/Game/External/DBV" three_meshes) = 3 /\
    last (printed (events (Simple.move_folder_contents "/Game/DBV" "/Game/External/DBV"
                             false dbv_store_one_refusal))) EmptyString
    = Simple.summary_line moved failed.
Proof.
  apply (live_mover_continues_after_failure "/Game/DBV" "/Game/External/DBV"
           dbv_store_one_refusal dbv_store_one_refusal dbv_store_one_refusal three_meshes);
    reflexivity.
Defined.

(** The entry point on the store with three meshes in [/Game/DBV]. *)
Lemma main_runs_live_witness :
  does_directory_exist "/Game/DBV" dbv_store = (Returns true, dbv_store) /\
  get_assets_by_path "/Game/DBV" true dbv_store = (Returns three_meshes, dbv_store) /\
  In (RenameAsset "/Game/DBV/Rock" "/Game/External/DBV/Rock")
     (calls_of (events (Simple.main dbv_store))).
Proof.
  split; [reflexivity |]. split; [reflexivity |].
  apply (proj1 (proj2 (main_runs_live (S:=Store))) dbv_store dbv_store dbv_store
           (mesh "Rock") [mesh "Tree"; mesh "Lamp"]); reflexivity.
Defined.

End MoverFacts.

(** ** The folder ensurers *)

Module EnsurerFacts.
Import PyStr Host Host.Notations HostFacts Props.

Section Store.
Context {S : Type} {API : EditorAPI S}.

Lemma quick_loop_folder_only (folder_list : list string) :
  all_events folder_only (QuickCreate.ensure_folders (S:=S) folder_list).
Proof.
  unfold QuickCreate.ensure_folders, QuickCreate.ensure_folder, directory_exists, mkdir.
  quiet.
Qed.

Lemma quick_script_folder_only :
  all_events folder_only (QuickCreate.create_folder_structure (S:=S)).
Proof.
  unfold QuickCreate.create_folder_structure, QuickCreate.print_summary. quiet.
Qed.

Lemma reorganizer_loop_folder_only (structure : list (string * list string)) :
  all_events folder_only (Reorganizer.ensure_structure (S:=S) structure).
Proof.
  unfold Reorganizer.ensure_structure, Reorganizer.ensure_folder, directory_exists, mkdir.
  quiet.
Qed.

Lemma reorganizer_script_folder_only :
  all_events folder_only (Reorganizer.create_folder_structure (S:=S)).
Proof. unfold Reorganizer.create_folder_structure. quiet. Qed.

Lemma print_failed_run (l : list string) (s : S) :
  for_each l tt QuickCreate.print_failed s
  = mkRun (Returns tt) s (map (fun f => EvPrint ("  - " ++ f)%string) l).
Proof.
  induction l as [|f l IH]; [reflexivity |].
  cbn [for_each]. unfold bind. cbn [QuickCreate.print_failed print result final events].
  now rewrite IH.
Qed.

(** The summary block only prints. *)
Lemma quick_summary_run (t : QuickCreate.Tally) (s : S) :
  result (QuickCreate.print_summary t s) = Returns tt /\
  final (QuickCreate.print_summary t s) = s /\
  calls_of (events (QuickCreate.print_summary t s)) = [].
Proof.
  unfold QuickCreate.print_summary.
  destruct (QuickCreate.failed t) as [|f l];
    repeat (step; rewrite ?print_failed_run, ?calls_of_app, ?calls_of_prints;
            cbn [result final events calls_of app]);
    rewrite ?map_map, <- ?(map_map (fun f0 => ("  - " ++ f0)%string) EvPrint),
      ?calls_of_prints; auto.
Qed.

(** Both scripts are their loop between lines. *)
Lemma quick_script_run (s : S) :
  result (QuickCreate.create_folder_structure s)
  = result (QuickCreate.ensure_folders QuickCreate.folders s) /\
  final (QuickCreate.create_folder_structure s)
  = final (QuickCreate.ensure_folders QuickCreate.folders s) /\
  calls_of (events (QuickCreate.create_folder_structure s))
  = calls_of (events (QuickCreate.ensure_folders QuickCreate.folders s)).
Proof.
  unfold QuickCreate.create_folder_structure.
  repeat (step; rewrite ?calls_of_app; cbn [calls_of app]).
  destruct (result (QuickCreate.ensure_folders QuickCreate.folders s)) as [t|msg];
    [| now rewrite app_nil_r].
  destruct (quick_summary_run t (final (QuickCreate.ensure_folders QuickCreate.folders s)))
    as (Hr & Hf & Hc).
  rewrite ?Hr. cbn [result final events]. rewrite ?Hr, ?Hf, ?Hc.
  repeat (step; rewrite ?calls_of_app; cbn [calls_of app]).
  rewrite ?Hr, ?Hf, ?Hc, ?app_nil_r. auto.
Qed.

Lemma reorganizer_script_run (s : S) :
  Reorganizer.create_folder_structure s
  = mkRun (result (Reorganizer.ensure_structure Reorganizer.target_structure s))
      (final (Reorganizer.ensure_structure Reorganizer.target_structure s))
      (map EvPrint (Reorganizer.banner "CREATING NEW FOLDER STRUCTURE")
       ++ events (Reorganizer.ensure_structure Reorganizer.target_structure s)).
Proof.
  unfold Reorganizer.create_folder_structure, bind. rewrite print_all_run.
  cbn [result final events]. reflexivity.
Qed.

Lemma ensure_structure_flat (structure : list (string * list string)) :
  forall acc (s : S),
    for_each structure acc
      (fun entry created_folders =>
         for_each (snd entry) created_folders Reorganizer.ensure_folder) s
    = for_each (flat_map snd structure) acc Reorganizer.ensure_folder s.
Proof.
  induction structure as [|entry rest IH]; intros acc s; [reflexivity |].
  cbn [for_each flat_map]. rewrite for_each_app.
  apply bind_ext. intros. apply IH.
Qed.

Hypothesis persist : FoldersPersist (S:=S).

(** *** [quick_create_folders.py] *)

Lemma quick_step_present folder t (s : S) :
  dir_present folder s ->
  QuickCreate.ensure_folder folder t s
  = mkRun (Returns (QuickCreate.mkTally (QuickCreate.created t)
                      (QuickCreate.existing t ++ [folder]) (QuickCreate.failed t)))
      (snd (does_directory_exist folder s))
      (exists_events already_exists_line folder).
Proof.
  unfold dir_present, QuickCreate.ensure_folder, directory_exists, call_bool, bind.
  destruct (does_directory_exist folder s) as [r s1]. simpl. intros ->. reflexivity.
Qed.

Lemma quick_step_keeps folder t (s : S) q :
  dir_present q s -> dir_present q (final (QuickCreate.ensure_folder folder t s)).
Proof.
  intros Hq. apply (query_keeps persist folder) in Hq.
  unfold QuickCreate.ensure_folder, directory_exists, mkdir, call_bool, bind, print.
  destruct (does_directory_exist folder s) as [[[|]|msg] s1]; simpl in *; auto.
  apply (mkdir_keeps persist folder) in Hq.
  destruct (make_directory folder s1) as [[[|]|msg] s2]; simpl in *; auto.
Qed.

Lemma quick_step_cases folder t (s : S) t1 :
  result (QuickCreate.ensure_folder folder t s) = Returns t1 ->
  (QuickCreate.failed t1 = QuickCreate.failed t /\
   dir_present folder (final (QuickCreate.ensure_folder folder t s))) \/
  QuickCreate.failed t1 = QuickCreate.failed t ++ [folder].
Proof.
  unfold QuickCreate.ensure_folder, directory_exists, mkdir, call_bool, bind, print.
  destruct (does_directory_exist folder s) as [[[|]|msg] s1] eqn:Hq; simpl.
  - intros [= <-]. left. split; [reflexivity |].
    assert (Hp : dir_present folder s) by (unfold dir_present; now rewrite Hq).
    apply (query_keeps persist folder) in Hp. now rewrite Hq in Hp.
  - destruct (make_directory folder s1) as [[[|]|msg] s2] eqn:Hm; simpl.
    + intros [= <-]. left. split; [reflexivity |].
      pose proof (mkdir_creates persist folder s1) as H'.
      rewrite Hm in H'. now apply H'.
    + intros [= <-]. now right.
    + discriminate.
  - discriminate.
Qed.

Lemma quick_failed_grows folder_list :
  forall t (s : S) t',
    result (for_each folder_list t QuickCreate.ensure_folder s) = Returns t' ->
    exists extra, QuickCreate.failed t' = QuickCreate.failed t ++ extra.
Proof.
  induction folder_list as [|f l IH]; intros t s t'.
  - simpl. intros [= <-]. exists []. now rewrite app_nil_r.
  - cbn [for_each]. rewrite result_bind.
    destruct (result (QuickCreate.ensure_folder f t s)) as [t1|msg] eqn:E; [| discriminate].
    intros H. apply IH in H as [extra H].
    apply quick_step_cases in E as [[E _] | E]; rewrite H, E.
    + now exists extra.
    + exists (f :: extra). now rewrite <- app_assoc.
Qed.

Lemma quick_loop_keeps folder_list q :
  forall t (s : S),
    dir_present q s ->
    dir_present q (final (for_each folder_list t QuickCreate.ensure_folder s)).
Proof.
  induction folder_list as [|f l IH]; intros t s Hq; [exact Hq |].
  cbn [for_each]. rewrite final_bind.
  apply (quick_step_keeps f t) in Hq.
  destruct (result (QuickCreate.ensure_folder f t s)); auto.
Qed.

(** After a run without failure every folder of the list exists. *)
Lemma quick_first_run folder_list :
  forall t (s : S) t',
    result (for_each folder_list t QuickCreate.ensure_folder s) = Returns t' ->
    QuickCreate.failed t' = QuickCreate.failed t ->
    forall p, In p folder_list ->
      dir_present p (final (for_each folder_list t QuickCreate.ensure_folder s)).
Proof.
  induction folder_list as [|f l IH]; intros t s t' Hres Hfail p Hin; [destruct Hin |].
  revert Hres. cbn [for_each]. rewrite result_bind, final_bind.
  destruct (result (QuickCreate.ensure_folder f t s)) as [t1|msg] eqn:E; [| discriminate].
  intros Hres.
  destruct (quick_failed_grows _ _ _ _ Hres) as [extra Hextra].
  destruct (quick_step_cases _ _ _ _ E) as [[E1 Hf] | E1].
  - destruct Hin as [<- | Hin].
    + now apply quick_loop_keeps.
    + apply (IH t1 _ t'); auto. congruence.
  - exfalso. rewrite Hextra, E1, <- app_assoc in Hfail.
    rewrite <- (app_nil_r (QuickCreate.failed t)) in Hfail at 2.
    apply app_inv_head in Hfail. discriminate.
Qed.

(** A run on folders that all exist: only existence queries, every folder
    reported as existing. *)
Lemma quick_second_run folder_list :
  forall t (s : S),
    (forall p, In p folder_list -> dir_present p s) ->
    result (for_each folder_list t QuickCreate.ensure_folder s)
    = Returns (QuickCreate.mkTally (QuickCreate.created t)
                 (QuickCreate.existing t ++ folder_list) (QuickCreate.failed t)) /\
    events (for_each folder_list t QuickCreate.ensure_folder s)
    = flat_map (exists_events already_exists_line) folder_list.
Proof.
  induction folder_list as [|f l IH]; intros t s Hall.
  - simpl. rewrite app_nil_r. now destruct t.
  - cbn [for_each]. unfold bind. rewrite quick_step_present by (apply Hall; now left).
    cbn [result final events].
    destruct (IH (QuickCreate.mkTally (QuickCreate.created t)
                    (QuickCreate.existing t ++ [f]) (QuickCreate.failed t))
                (snd (does_directory_exist f s))) as [-> ->].
    + intros p Hp. apply (query_keeps persist). apply Hall. now right.
    + cbn [QuickCreate.created QuickCreate.existing QuickCreate.failed flat_map].
      now rewrite <- app_assoc.
Qed.

(** *** [ContentReorganizer.create_folder_structure] *)

Lemma reorganizer_step_present folder created (s : S) :
  dir_present (game_path folder) s ->
  Reorganizer.ensure_folder folder created s
  = mkRun (Returns created) (snd (does_directory_exist (game_path folder) s))
      (exists_events folder_exists_line (game_path folder)).
Proof.
  unfold dir_present, Reorganizer.ensure_folder, directory_exists, call_bool, bind.
  fold (game_path folder).
  destruct (does_directory_exist (game_path folder) s) as [r s1]. simpl. intros ->.
  reflexivity.
Qed.

Lemma reorganizer_step_keeps folder created (s : S) q :
  dir_present q s -> dir_present q (final (Reorganizer.ensure_folder folder created s)).
Proof.
  intros Hq. apply (query_keeps persist (game_path folder)) in Hq.
  unfold Reorganizer.ensure_folder, directory_exists, mkdir, call_bool, bind, print.
  fold (game_path folder).
  destruct (does_directory_exist (game_path folder) s) as [[[|]|msg] s1]; simpl in *; auto.
  apply (mkdir_keeps persist (game_path folder)) in Hq.
  destruct (make_directory (game_path folder) s1) as [[[|]|msg] s2]; simpl in *; auto.
Qed.

Lemma reorganizer_step_granted folder created (s : S) created1 :
  result (Reorganizer.ensure_folder folder created s) = Returns created1 ->
  forallb mkdir_granted (events (Reorganizer.ensure_folder folder created s)) = true ->
  dir_present (game_path folder) (final (Reorganizer.ensure_folder folder created s)).
Proof.
  unfold Reorganizer.ensure_folder, directory_exists, mkdir, call_bool, bind, print.
  fold (game_path folder).
  destruct (does_directory_exist (game_path folder) s) as [[[|]|msg] s1] eqn:Hq; simpl.
  - intros _ _.
    assert (Hp : dir_present (game_path folder) s)
      by (unfold dir_present; now rewrite Hq).
    apply (query_keeps persist (game_path folder)) in Hp. now rewrite Hq in Hp.
  - destruct (make_directory (game_path folder) s1) as [[[|]|msg] s2] eqn:Hm; simpl.
    + intros _ _. pose proof (mkdir_creates persist (game_path folder) s1) as H'.
      rewrite Hm in H'. now apply H'.
    + discriminate.
    + discriminate.
  - discriminate.
Qed.

Lemma reorganizer_loop_keeps folder_list q :
  forall created (s : S),
    dir_present q s ->
    dir_present q (final (for_each folder_list created Reorganizer.ensure_folder s)).
Proof.
  induction folder_list as [|f l IH]; intros created s Hq; [exact Hq |].
  cbn [for_each]. rewrite final_bind.
  apply (reorganizer_step_keeps f created) in Hq.
  destruct (result (Reorganizer.ensure_folder f created s)); auto.
Qed.

Lemma reorganizer_first_run folder_list :
  forall created (s : S) created',
    result (for_each folder_list created Reorganizer.ensure_folder s) = Returns created' ->
    forallb mkdir_granted
      (events (for_each folder_list created Reorganizer.ensure_folder s)) = true ->
    forall p, In p folder_list ->
      dir_present (game_path p)
        (final (for_each folder_list created Reorganizer.ensure_folder s)).
Proof.
  induction folder_list as [|f l IH]; intros created s created' Hres Hev p Hin;
    [destruct Hin |].
  revert Hres Hev. cbn [for_each]. rewrite result_bind, final_bind, events_bind.
  destruct (result (Reorganizer.ensure_folder f created s)) as [c1|msg] eqn:E;
    [| discriminate].
  rewrite forallb_app, andb_true_iff. intros Hres [Hev1 Hev2].
  destruct Hin as [<- | Hin].
  - apply reorganizer_loop_keeps. now apply (reorganizer_step_granted _ _ _ c1).
  - now apply (IH c1 _ created').
Qed.

Lemma reorganizer_second_run folder_list :
  forall created (s : S),
    (forall p, In p folder_list -> dir_present (game_path p) s) ->
    result (for_each folder_list created Reorganizer.ensure_folder s) = Returns created /\
    events (for_each folder_list created Reorganizer.ensure_folder s)
    = flat_map (exists_events folder_exists_line) (map game_path folder_list).
Proof.
  induction folder_list as [|f l IH]; intros created s Hall.
  - simpl. auto.
  - cbn [for_each]. unfold bind.
    rewrite reorganizer_step_present by (apply Hall; now left).
    cbn [result final events].
    destruct (IH created (snd (does_directory_exist (game_path f) s))) as [-> ->].
    + intros p Hp. apply (query_keeps persist). apply Hall. now right.
    + split; reflexivity.
Qed.
End Store.

Lemma exists_events_calls line (folder_list : list string) :
  calls_of (flat_map (exists_events line) folder_list)
  = map DoesDirectoryExist folder_list.
Proof. induction folder_list as [|f l IH]; simpl; congruence. Qed.

Lemma exists_events_printed line (folder_list : list string) :
  printed (flat_map (exists_events line) folder_list) = map line folder_list.
Proof. induction folder_list as [|f l IH]; simpl; congruence. Qed.

Lemma queries_make_no_directory (folder_list : list string) :
  filter is_make_directory (map DoesDirectoryExist folder_list) = [].
Proof. induction folder_list as [|f l IH]; simpl; auto. Qed.

Section Idempotence.
Context {S : Type} {API : EditorAPI S}.

Lemma quick_twice (persist : FoldersPersist (S:=S)) folder_list (s : S) t1 :
  result (QuickCreate.ensure_folders folder_list s) = Returns t1 ->
  QuickCreate.failed t1 = [] ->
  result (QuickCreate.ensure_folders folder_list
            (final (QuickCreate.ensure_folders folder_list s)))
  = Returns (QuickCreate.mkTally [] folder_list []) /\
  events (QuickCreate.ensure_folders folder_list
            (final (QuickCreate.ensure_folders folder_list s)))
  = flat_map (exists_events already_exists_line) folder_list.
Proof.
  intros Hres Hfail. unfold QuickCreate.ensure_folders in *.
  apply (quick_second_run persist folder_list (QuickCreate.mkTally [] [] [])).
  intros p Hp. now apply (quick_first_run persist folder_list _ s t1).
Qed.

Lemma reorganizer_twice (persist : FoldersPersist (S:=S)) structure (s : S) created :
  result (Reorganizer.ensure_structure structure s) = Returns created ->
  forallb mkdir_granted (events (Reorganizer.ensure_structure structure s)) = true ->
  result (Reorganizer.ensure_structure structure
            (final (Reorganizer.ensure_structure structure s)))
  = Returns [] /\
  events (Reorganizer.ensure_structure structure
            (final (Reorganizer.ensure_structure structure s)))
  = flat_map (exists_events folder_exists_line)
      (map game_path (flat_map snd structure)).
Proof.
  unfold Reorganizer.ensure_structure. rewrite !ensure_structure_flat.
  intros Hres Hev.
  apply (reorganizer_second_run persist (flat_map snd structure) []).
  intros p Hp.
  now apply (reorganizer_first_run persist (flat_map snd structure) [] s created).
Qed.

(** C4. On a store where folders persist, the folder ensurers are
    idempotent: after a run in which every absent folder was created (no
    failure recorded, no [make_directory] refused), a second run over the
    same list makes no [make_directory] call and reports every path as
    existing; this holds for the loops over any folder list and for the
    two scripts with their own lists. On every store, the ensurers call
    nothing but [does_directory_exist] and [make_directory]. *)
Theorem folder_ensurer_idempotent :
  (FoldersPersist (S:=S) ->
   forall folder_list (s : S) t1,
     result (QuickCreate.ensure_folders folder_list s) = Returns t1 ->
     QuickCreate.failed t1 = [] ->
     let s1 := final (QuickCreate.ensure_folders folder_list s) in
     result (QuickCreate.ensure_folders folder_list s1)
     = Returns (QuickCreate.mkTally [] folder_list []) /\
     filter is_make_directory
       (calls_of (events (QuickCreate.ensure_folders folder_list s1))) = [] /\
     printed (events (QuickCreate.ensure_folders folder_list s1))
     = map already_exists_line folder_list) /\
  (FoldersPersist (S:=S) ->
   forall structure (s : S) created,
     result (Reorganizer.ensure_structure structure s) = Returns created ->
     forallb mkdir_granted (events (Reorganizer.ensure_structure structure s)) = true ->
     let s1 := final (Reorganizer.ensure_structure structure s) in
     result (Reorganizer.ensure_structure structure s1) = Returns [] /\
     filter is_make_directory
       (calls_of (events (Reorganizer.ensure_structure structure s1))) = [] /\
     printed (events (Reorganizer.ensure_structure structure s1))
     = map folder_exists_line (map game_path (flat_map snd structure))) /\
  (FoldersPersist (S:=S) ->
   forall (s : S) t1,
     result (QuickCreate.create_folder_structure s) = Returns t1 ->
     QuickCreate.failed t1 = [] ->
     let s1 := final (QuickCreate.create_folder_structure s) in
     result (QuickCreate.create_folder_structure s1)
     = Returns (QuickCreate.mkTally [] QuickCreate.folders []) /\
     filter is_make_directory
       (calls_of (events (QuickCreate.create_folder_structure s1))) = []) /\
  (FoldersPersist (S:=S) ->
   forall (s : S) created,
     result (Reorganizer.create_folder_structure s) = Returns created ->
     forallb mkdir_granted (events (Reorganizer.create_folder_structure s)) = true ->
     let s1 := final (Reorganizer.create_folder_structure s) in
     result (Reorganizer.create_folder_structure s1) = Returns [] /\
     filter is_make_directory
       (calls_of (events (Reorganizer.create_folder_structure s1))) = [] /\
     printed (events (Reorganizer.create_folder_structure s1))
     = Reorganizer.banner "CREATING NEW FOLDER STRUCTURE"
       ++ map folder_exists_line
            (map game_path (flat_map snd Reorganizer.target_structure))) /\
  (forall folder_list (s : S),
      forallb is_folder_call
        (calls_of (events (QuickCreate.ensure_folders folder_list s))) = true) /\
  (forall structure (s : S),
      forallb is_folder_call
        (calls_of (events (Reorganizer.ensure_structure structure s))) = true) /\
  (forall (s : S),
      forallb is_folder_call
        (calls_of (events (QuickCreate.create_folder_structure s))) = true) /\
  (forall (s : S),
      forallb is_folder_call
        (calls_of (events (Reorganizer.create_folder_structure s))) = true).
Proof.
  split; [| split; [| split; [| split]]].
  - intros persist folder_list s t1 Hres Hfail s1.
    destruct (quick_twice persist folder_list s t1 Hres Hfail) as [Hr He].
    fold s1 in Hr, He. rewrite Hr, He, exists_events_calls, exists_events_printed.
    auto using queries_make_no_directory.
  - intros persist structure s created Hres Hev s1.
    destruct (reorganizer_twice persist structure s created Hres Hev) as [Hr He].
    fold s1 in Hr, He. rewrite Hr, He, exists_events_calls, exists_events_printed.
    auto using queries_make_no_directory.
  - intros persist s t1 Hres Hfail s1. subst s1.
    destruct (quick_script_run s) as (Hr1 & Hf1 & _).
    rewrite Hr1 in Hres. rewrite Hf1.
    destruct (quick_script_run (final (QuickCreate.ensure_folders QuickCreate.folders s)))
      as (-> & _ & ->).
    destruct (quick_twice persist QuickCreate.folders s t1 Hres Hfail) as [-> ->].
    rewrite exists_events_calls. auto using queries_make_no_directory.
  - intros persist s created Hres Hev s1. subst s1.
    rewrite !reorganizer_script_run in *. cbn [result final events] in *.
    rewrite forallb_app in Hev. apply andb_true_iff in Hev as [_ Hev].
    destruct (reorganizer_twice persist Reorganizer.target_structure s created Hres Hev)
      as [-> ->].
    rewrite calls_of_app, printed_app, calls_of_prints, printed_prints,
      exists_events_calls, exists_events_printed.
    auto using queries_make_no_directory.
  - repeat split; intros; apply folder_only_calls.
    + apply quick_loop_folder_only.
    + apply reorganizer_loop_folder_only.
    + apply quick_script_folder_only.
    + apply reorganizer_script_folder_only.
Qed.
End Idempotence.

Import Fake Samples.

(** Folders persist in the in-memory store. *)
Lemma fake_folders_persist : FoldersPersist (S:=Store).
Proof.
  split.
  - intros p q s H. exact H.
  - intros p q s. unfold dir_present. simpl. unfold fake_mkdir, fake_exists.
    destruct (mem p (mkdir_refused s)); simpl; [auto |].
    intros [= H]. unfold mem in *. now rewrite existsb_app, H.
  - intros p s. unfold dir_present. simpl. unfold fake_mkdir, fake_exists.
    destruct (mem p (mkdir_refused s)); simpl; [discriminate |].
    intros _. unfold mem. rewrite existsb_app. simpl.
    now rewrite String.eqb_refl, orb_true_r.
Qed.

(** The theorem on the empty in-memory store: the first run of each script
    creates every folder, the second one creates none. *)
Lemma folder_ensurer_idempotent_witness :
  result (QuickCreate.create_folder_structure empty_store)
  = Returns (QuickCreate.mkTally QuickCreate.folders [] []) /\
  result (QuickCreate.create_folder_structure
            (final (QuickCreate.create_folder_structure empty_store)))
  = Returns (QuickCreate.mkTally [] QuickCreate.folders []) /\
  filter is_make_directory
    (calls_of (events (QuickCreate.create_folder_structure
                         (final (QuickCreate.create_folder_structure empty_store)))))
  = [] /\
  forallb mkdir_granted (events (Reorganizer.create_folder_structure empty_store)) = true /\
  result (Reorganizer.create_folder_structure
            (final (Reorganizer.create_folder_structure empty_store)))
  = Returns [].
Proof.
  destruct (folder_ensurer_idempotent (S:=Store)) as (_ & _ & Hquick & Hreorg & _).
  split; [reflexivity |].
  destruct (Hquick fake_folders_persist empty_store
              (QuickCreate.mkTally QuickCreate.folders [] [])) as [H1 H2];
    [reflexivity | reflexivity |].
  split; [exact H1 |]. split; [exact H2 |]. split; [reflexivity |].
  apply (Hreorg fake_folders_persist empty_store
           (map game_path (flat_map snd Reorganizer.target_structure)));
    reflexivity.
Defined.

End EnsurerFacts.

(** ** The cleanup sweep *)

Module CleanupFacts.
Import PyStr PyStrFacts Host Host.Notations HostFacts Props.

Lemma string_app_assoc (a b c : string) : ((a ++ b) ++ c = a ++ (b ++ c))%string.
Proof. induction a; simpl; congruence. Qed.

(** The second test of the collecting loop adds nothing: a class name that
    contains ["ObjectRedirector"] contains ["Redirector"]. *)
Lemma is_redirector_contains (a : AssetData) :
  Cleanup.is_redirector a = contains "Redirector" (asset_class a).
Proof.
  unfold Cleanup.is_redirector.
  destruct (contains "Redirector" (asset_class a)) eqn:E; [reflexivity |].
  simpl. destruct (contains "ObjectRedirector" (asset_class a)) eqn:E'; [| reflexivity].
  apply contains_spec in E' as (pre & post & H).
  assert (Hsub : Substring "Redirector" (asset_class a)).
  { exists (pre ++ "Object")%string, post. rewrite H, string_app_assoc. reflexivity. }
  apply contains_spec in Hsub. congruence.
Qed.

Lemma redirectors_of_contains (assets : list AssetData) :
  Cleanup.redirectors_of assets
  = map package_name (filter (fun a => contains "Redirector" (asset_class a)) assets).
Proof.
  unfold Cleanup.redirectors_of. f_equal. apply filter_ext. exact is_redirector_contains.
Qed.

Section Store.
Context {S : Type} {API : EditorAPI S}.

Lemma check_folder_empty_missing folder (s s1 : S) :
  does_directory_exist folder s = (Returns false, s1) ->
  Cleanup.check_folder_empty folder s
  = mkRun (Returns None) s1 [EvCall (DoesDirectoryExist folder) (RBool false)].
Proof.
  intros H. unfold Cleanup.check_folder_empty, directory_exists, call_bool, bind.
  rewrite H. reflexivity.
Qed.

Lemma check_folder_empty_listed folder (s s1 s2 : S) assets :
  does_directory_exist folder s = (Returns true, s1) ->
  get_assets_by_path folder true s1 = (Returns assets, s2) ->
  Cleanup.check_folder_empty folder s
  = mkRun (Returns (Some (length assets =? 0))) s2
      [ EvCall (DoesDirectoryExist folder) (RBool true);
        EvCall (GetAssetsByPath folder true) (RAssets assets) ].
Proof.
  intros H1 H2.
  unfold Cleanup.check_folder_empty, directory_exists, assets_by_path, call_bool,
    call_assets, bind.
  rewrite H1. cbn [result final events negb]. rewrite H2. reflexivity.
Qed.

Lemma print_remaining_run (assets : list AssetData) (s : S) :
  for_each assets tt Cleanup.print_remaining s
  = mkRun (Returns tt) s (map (fun a => EvPrint (Cleanup.remaining_line a)) assets).
Proof.
  induction assets as [|a l IH]; [reflexivity |].
  cbn [for_each]. unfold bind. cbn [Cleanup.print_remaining print result final events].
  rewrite IH. reflexivity.
Qed.

(** The report on a folder that exists and is not empty; the registry is
    asked twice, once by the emptiness check and once for the count. *)
Lemma report_folder_nonempty folder acc (s s1 s2 s3 : S) first_listing assets :
  does_directory_exist folder s = (Returns true, s1) ->
  get_assets_by_path folder true s1 = (Returns first_listing, s2) ->
  first_listing <> [] ->
  get_assets_by_path folder true s2 = (Returns assets, s3) ->
  result (Cleanup.report_folder folder acc s) = Returns acc /\
  printed (events (Cleanup.report_folder folder acc s))
  = count_line (length assets) folder
    :: (if (0 <? length assets) && (length assets <=? 10)
        then "    Remaining assets:" :: map Cleanup.remaining_line (firstn 10 assets)
        else []).
Proof.
  intros H1 H2 Hne H3. unfold Cleanup.report_folder, bind.
  rewrite (check_folder_empty_listed folder s s1 s2 first_listing H1 H2).
  cbn [result final events].
  destruct first_listing as [|a0 l0]; [congruence |]. cbn [length Nat.eqb].
  unfold assets_by_path, call_assets. rewrite H3. cbn [result final events print].
  destruct ((0 <? length assets) && (length assets <=? 10)).
  - cbn [result final events]. rewrite print_remaining_run. cbn [result final events ret].
    split; [reflexivity |].
    cbn [app printed]. rewrite app_nil_r. unfold count_line. do 2 f_equal.
    clear. induction (firstn 10 assets) as [|b l IH]; simpl; [reflexivity | now rewrite IH].
  - cbn [result final events ret]. split; reflexivity.
Qed.

(** C5, as the code has it. The emptiness check answers [True] for an
    existing folder whose listing is empty and [None] for a folder that
    does not exist; for an existing folder with records the report gives
    their count, and lists their names only when there are at most ten:
    with 11 records it gives the count 11 and lists no name. *)
Theorem emptiness_check_reports :
  (forall folder (s s1 s2 : S),
      does_directory_exist folder s = (Returns true, s1) ->
      get_assets_by_path folder true s1 = (Returns [], s2) ->
      result (Cleanup.check_folder_empty folder s) = Returns (Some true)) /\
  (forall folder (s s1 : S),
      does_directory_exist folder s = (Returns false, s1) ->
      result (Cleanup.check_folder_empty folder s) = Returns None) /\
  (forall folder acc (s s1 s2 s3 : S) assets,
      does_directory_exist folder s = (Returns true, s1) ->
      get_assets_by_path folder true s1 = (Returns assets, s2) ->
      get_assets_by_path folder true s2 = (Returns assets, s3) ->
      length assets = 11 ->
      result (Cleanup.report_folder folder acc s) = Returns acc /\
      printed (events (Cleanup.report_folder folder acc s)) = [count_line 11 folder]) /\
  (forall folder acc (s s1 s2 s3 : S) assets,
      does_directory_exist folder s = (Returns true, s1) ->
      get_assets_by_path folder true s1 = (Returns assets, s2) ->
      get_assets_by_path folder true s2 = (Returns assets, s3) ->
      1 <= length assets ->
      printed (events (Cleanup.report_folder folder acc s))
      = count_line (length assets) folder
        :: (if length assets <=? 10
            then "    Remaining assets:" :: map Cleanup.remaining_line assets
            else [])).
Proof.
  split; [| split; [| split]].
  - intros folder s s1 s2 H1 H2.
    now rewrite (check_folder_empty_listed folder s s1 s2 [] H1 H2).
  - intros folder s s1 H. now rewrite (check_folder_empty_missing folder s s1 H).
  - intros folder acc s s1 s2 s3 assets H1 H2 H3 Hlen.
    destruct (report_folder_nonempty folder acc s s1 s2 s3 assets assets H1 H2)
      as [Hr Hp]; [intros ->; discriminate | exact H3 |].
    rewrite Hr, Hp, Hlen. split; reflexivity.
  - intros folder acc s s1 s2 s3 assets H1 H2 H3 Hlen.
    destruct (report_folder_nonempty folder acc s s1 s2 s3 assets assets H1 H2)
      as [_ Hp]; [intros ->; simpl in Hlen; lia | exact H3 |].
    rewrite Hp. f_equal.
    replace (0 <? length assets) with true by (symmetry; apply Nat.ltb_lt; lia).
    cbn [andb]. destruct (length assets <=? 10) eqn:E; [| reflexivity].
    apply Nat.leb_le in E. now rewrite firstn_all2 by exact E.
Qed.

(** *** The redirector sweep *)

Lemma delete_redirector_run (redirector_path : string) (s : S) :
  result (Cleanup.delete_redirector redirector_path tt s) = Returns tt /\
  calls_of (events (Cleanup.delete_redirector redirector_path tt s))
  = [DeleteAsset redirector_path].
Proof.
  unfold Cleanup.delete_redirector, try_except, bind, delete, call_bool, print.
  destruct (delete_asset redirector_path s) as [[b|msg] s1]; split; reflexivity.
Qed.

(** Whatever the deletes answer, the loop goes through the whole list. *)
Lemma delete_loop_run (redirectors : list string) :
  forall (s : S),
    result (for_each redirectors tt Cleanup.delete_redirector s) = Returns tt /\
    calls_of (events (for_each redirectors tt Cleanup.delete_redirector s))
    = map DeleteAsset redirectors.
Proof.
  induction redirectors as [|r l IH]; intros s; [split; reflexivity |].
  cbn [for_each]. rewrite result_bind, events_bind, calls_of_app.
  destruct (delete_redirector_run r s) as [-> ->].
  destruct (IH (final (Cleanup.delete_redirector r tt s))) as [-> ->].
  split; reflexivity.
Qed.

Lemma fix_redirectors_run folder (s s1 s2 : S) assets first rest b :
  does_directory_exist folder s = (Returns true, s1) ->
  get_assets_by_path folder true s1 = (Returns assets, s2) ->
  Cleanup.redirectors_of assets = first :: rest ->
  fst (consolidate_assets first (first :: rest) s2) = Returns b ->
  result (Cleanup.fix_redirectors_in_folder folder s) = Returns (length (first :: rest)) /\
  calls_of (events (Cleanup.fix_redirectors_in_folder folder s))
  = [ DoesDirectoryExist folder; GetAssetsByPath folder true;
      ConsolidateAssets first (first :: rest) ]
    ++ map DeleteAsset (first :: rest).
Proof.
  intros H1 H2 H3 H4.
  unfold Cleanup.fix_redirectors_in_folder, directory_exists, assets_by_path,
    consolidate, call_bool, call_assets, print.
  repeat (rewrite ?result_bind, ?events_bind, ?final_bind;
          cbn [result final events negb length Nat.ltb Nat.leb];
          rewrite ?H1, ?H2, ?H3).
  destruct (consolidate_assets first (first :: rest) s2) as [r s3]. simpl in H4. subst r.
  cbn [result final events].
  destruct (delete_loop_run (first :: rest) s3) as [Hr Hc]. rewrite Hr.
  cbn [result final events ret]. split; [reflexivity |].
  rewrite !calls_of_app, Hc. cbn [calls_of app]. now rewrite app_nil_r.
Qed.

(** C6. For a folder that exists and lists exactly three records whose
    class contains ["Redirector"], when the consolidation call returns,
    the sweep makes, after the existence query and the listing, one
    consolidation call whose target is the first redirector listed, then
    one delete call for each of the three redirectors, whatever the
    deletes answer: a delete that raises does not stop the loop. *)
Theorem redirector_sweep_attempts_every_delete folder (s s1 s2 : S) assets r1 r2 r3 b :
  does_directory_exist folder s = (Returns true, s1) ->
  get_assets_by_path folder true s1 = (Returns assets, s2) ->
  map package_name (filter (fun a => contains "Redirector" (asset_class a)) assets)
  = [r1; r2; r3] ->
  fst (consolidate_assets r1 [r1; r2; r3] s2) = Returns b ->
  calls_of (events (Cleanup.fix_redirectors_in_folder folder s))
  = [ DoesDirectoryExist folder; GetAssetsByPath folder true;
      ConsolidateAssets r1 [r1; r2; r3];
      DeleteAsset r1; DeleteAsset r2; DeleteAsset r3 ] /\
  result (Cleanup.fix_redirectors_in_folder folder s) = Returns 3.
Proof.
  intros H1 H2 H3 H4. rewrite <- redirectors_of_contains in H3.
  destruct (fix_redirectors_run folder s s1 s2 assets r1 [r2; r3] b H1 H2 H3 H4)
    as [Hr Hc].
  split; [exact Hc | exact Hr].
Qed.
End Store.

Import Fake Samples.

(** The sample folder: it exists, lists eleven records both times it is
    asked, and its report has the count line. *)
Example eleven_store_premises :
  does_directory_exist "/Game/DBV" eleven_store = (Returns true, eleven_store) /\
  get_assets_by_path "/Game/DBV" true eleven_store = (Returns eleven_meshes, eleven_store) /\
  length eleven_meshes = 11 /\
  In (count_line 11 "/Game/DBV") (printed (events (Cleanup.find_empty_folders eleven_store))).
Proof. repeat split; try reflexivity. vm_compute. tauto. Qed.

(** C5 as the specification states it fails: with eleven records in
    [/Game/DBV], [find_empty_folders] does not list the first ten names. *)
Lemma emptiness_check_eleven_counterexample :
  ~ lists_names (firstn 10 eleven_meshes)
      (printed (events (Cleanup.find_empty_folders eleven_store))).
Proof. unfold lists_names. vm_compute. discriminate. Qed.

(** What it lists instead: no name at all. *)
Example eleven_store_lists_nothing :
  lists_names [] (printed (events (Cleanup.find_empty_folders eleven_store))).
Proof. reflexivity. Qed.

(** The amended statement on the sample folders. *)
Lemma emptiness_check_reports_witness :
  does_directory_exist "/Game/DBV" eleven_store = (Returns true, eleven_store) /\
  get_assets_by_path "/Game/DBV" true eleven_store = (Returns eleven_meshes, eleven_store) /\
  length eleven_meshes = 11 /\
  printed (events (Cleanup.report_folder "/Game/DBV" [] eleven_store))
  = [count_line 11 "/Game/DBV"] /\
  does_directory_exist "/Game/Courses" eleven_store = (Returns false, eleven_store) /\
  result (Cleanup.check_folder_empty "/Game/Courses" eleven_store) = Returns None /\
  get_assets_by_path "/Game/DBV" true (plain_store ["/Game/DBV"] [])
  = (Returns [], plain_store ["/Game/DBV"] []) /\
  result (Cleanup.check_folder_empty "/Game/DBV" (plain_store ["/Game/DBV"] []))
  = Returns (Some true).
Proof.
  destruct (emptiness_check_reports (S:=Store)) as (Hempty & Hmissing & Heleven & _).
  split; [reflexivity |]. split; [reflexivity |]. split; [reflexivity |]. split.
  - apply (Heleven "/Game/DBV" [] eleven_store eleven_store eleven_store eleven_store
             eleven_meshes); reflexivity.
  - split; [reflexivity |]. split.
    + apply (Hmissing "/Game/Courses" eleven_store eleven_store). reflexivity.
    + split; [reflexivity |].
      apply (Hempty "/Game/DBV" (plain_store ["/Game/DBV"] [])
               (plain_store ["/Game/DBV"] []) (plain_store ["/Game/DBV"] []));
        reflexivity.
Defined.

(** The sweep on a folder with three redirectors, where deleting the
    second one raises: the third delete is still attempted. *)
Lemma redirector_sweep_attempts_every_delete_witness :
  filter (fun e => match e with EvCall (DeleteAsset _) _ => true | _ => false end)
    (events (Cleanup.fix_redirectors_in_folder "/Game/Courses" redirector_store))
  = [ EvCall (DeleteAsset "/Game/Courses/Old_A") (RBool true);
      EvCall (DeleteAsset "/Game/Courses/Old_B") (RRaised "delete rejected");
      EvCall (DeleteAsset "/Game/Courses/Old_C") (RBool true) ] /\
  calls_of (events (Cleanup.fix_redirectors_in_folder "/Game/Courses" redirector_store))
  = [ DoesDirectoryExist "/Game/Courses"; GetAssetsByPath "/Game/Courses" true;
      ConsolidateAssets "/Game/Courses/Old_A"
        [ "/Game/Courses/Old_A"; "/Game/Courses/Old_B"; "/Game/Courses/Old_C" ];
      DeleteAsset "/Game/Courses/Old_A"; DeleteAsset "/Game/Courses/Old_B";
      DeleteAsset "/Game/Courses/Old_C" ] /\
  result (Cleanup.fix_redirectors_in_folder "/Game/Courses" redirector_store) = Returns 3.
Proof.
  split; [reflexivity |].
  apply (redirector_sweep_attempts_every_delete "/Game/Courses" redirector_store
           redirector_store redirector_store course_assets
           "/Game/Courses/Old_A" "/Game/Courses/Old_B" "/Game/Courses/Old_C" true);
    reflexivity.
Defined.

End CleanupFacts.

(** ** The order of the phases *)

Module OrderFacts.
Import PyStr Host Host.Notations HostFacts Props.

Section Store.
Context {S : Type} {API : EditorAPI S}.

Lemma dry_run_notice_run dry_run (s : S) :
  Reorganizer.dry_run_notice dry_run s
  = mkRun (Returns tt) s (map EvPrint (notice_lines dry_run)).
Proof. destruct dry_run; reflexivity. Qed.

Lemma print_summary_run r (s : S) :
  Reorganizer.print_summary r s = mkRun (Returns tt) s (map EvPrint (summary_lines r)).
Proof.
  unfold Reorganizer.print_summary, summary_lines, bind, print.
  rewrite print_all_run. cbn [result final events].
  destruct (Reorganizer.errors r); reflexivity.
Qed.

Ltac phase_step :=
  rewrite ?events_bind, ?result_bind, ?final_bind, ?print_all_run,
    ?dry_run_notice_run, ?print_summary_run;
  cbn [result final events ret for_each negb].

Ltac closing :=
  cbn [map]; rewrite ?map_app, ?app_nil_r; cbn [map]; rewrite <- ?app_assoc;
  reflexivity.

(** A run that follows an order makes the calls of the phases in that
    order. *)
Lemma follows_order_calls order dry_run (s : S) :
  follows_order order dry_run s ->
  calls_of (events (Reorganizer.execute_full_reorganization dry_run s))
  = calls_of (events (run_phases dry_run order s)).
Proof.
  intros (opening & closing & ->).
  now rewrite !calls_of_app, !calls_of_prints, app_nil_r.
Qed.

(** C7, as the code has it. Every run of the full reorganization goes
    through its phases one after the other in the order analysis, folder
    creation, blueprint moves, special-folder moves (DBV to External),
    maps moves, followed in a live run by the final report: its events
    are the title lines, the events of these phases in this order, each
    started in the store the previous one left, and the closing lines. *)
Theorem full_reorganization_order (dry_run : bool) (s : S) :
  follows_order (code_order dry_run) dry_run s.
Proof.
  unfold follows_order.
  exists (Reorganizer.title_box ++ notice_lines dry_run).
  unfold Reorganizer.execute_full_reorganization, run_phases, code_order, run_phase.
  cbn [app for_each].
  generalize (@Reorganizer.generate_report S API).
  generalize (@Reorganizer.move_maps_to_levels S API).
  generalize (@Reorganizer.move_dbv_to_external S API).
  generalize (@Reorganizer.move_blueprints S API).
  generalize (@Reorganizer.create_folder_structure S API).
  generalize (@Reorganizer.analyze_current_structure S API).
  intros analysis folders blueprints special maps report.
  repeat phase_step.
  destruct (result (analysis s)) as [[locs stats]|msg] eqn:E1.
  2: { exists []. closing. }
  set (s1 := final (analysis s)).
  repeat phase_step.
  destruct (result (folders s1)) as [created|msg] eqn:E2.
  2: { exists []. closing. }
  set (s2 := final (folders s1)).
  repeat phase_step.
  destruct (result (blueprints dry_run s2)) as [[bp errs]|msg] eqn:E3.
  2: { exists []. closing. }
  set (s3 := final (blueprints dry_run s2)).
  repeat phase_step.
  destruct (result (special dry_run s3)) as [dbv|msg] eqn:E4.
  2: { exists []. closing. }
  set (s4 := final (special dry_run s3)).
  repeat phase_step.
  destruct (result (maps dry_run s4)) as [mm|msg] eqn:E5.
  2: { destruct dry_run; exists []; closing. }
  set (s5 := final (maps dry_run s4)).
  destruct dry_run; cbn [negb app for_each]; repeat phase_step.
  - exists (summary_lines (Reorganizer.mkReport bp mm created errs)). closing.
  - destruct (result (report s5)) as [[]|msg] eqn:E6.
    + repeat phase_step.
      exists (summary_lines (Reorganizer.mkReport bp mm created errs)). closing.
    + exists []. closing.
Qed.
End Store.

Import Fake Samples.

(** The calls of a dry run on the empty store begin with the analysis
    query; the folder calls come after it. *)
Example empty_store_first_calls :
  firstn 3 (calls_of (events (Reorganizer.execute_full_reorganization true empty_store)))
  = [ GetAssetsByPath "/Game/" true;
      DoesDirectoryExist "/Game/Core/Blueprints/Player";
      MakeDirectory "/Game/Core/Blueprints/Player" ].
Proof. reflexivity. Qed.

(** C7 as the specification states it fails: a dry run on the empty store
    does not create the folders before it analyses. *)
Lemma full_reorganization_order_counterexample :
  ~ follows_order claimed_order true empty_store.
Proof.
  intros H. apply follows_order_calls in H. vm_compute in H. discriminate.
Qed.

End OrderFacts.
